(** * Task repository over SQLite: a shallow embedding

    Sources embedded here:
    - [src/models/task.py]          the [Task] entity and its [__post_init__];
    - [src/database/migrations.py]  the [tasks] table, its constraints and indexes,
                                    and the functions that create and drop them;
    - [src/database/connection.py]  opening and closing connections;
    - [src/database/repository.py]  [SQLiteTaskRepository];
    - [src/ui/models.py]            [ViewMode] and [TaskFormData];
    - [src/ui/controller.py]        [StreamlitUIController].

    Conventions of the model.
    - A Python [str] is a [string]; a character is a code point below 256.
    - The storage engine and the datetime parsers are libraries: they are
      given here by the definitions of their documented behaviour on the
      statements and formats that this program uses.
    - Row ids are unbounded integers; the 64-bit limit of the engine's
      rowid space is outside the model.
    - Every primitive call on the engine (connect, execute, commit) may fail;
      which ones do is decided by an oracle of type [Faults]. *)

From Stdlib Require Import ZArith NArith List Bool String Ascii Lia.
From Stdlib Require Import Sorting.Sorted Sorting.Permutation.
Import ListNotations.

Local Open Scope string_scope.

(** ** Python strings *)

Module Py.

(** [str.isspace] on one character: the white-space code points below 256. *)
Definition isspace (c : ascii) : bool :=
  let n := N_of_ascii c in
  (((9 <=? n) && (n <=? 13)) || ((28 <=? n) && (n <=? 32))
   || (n =? 133) || (n =? 160))%N.

Fixpoint lstrip (s : string) : string :=
  match s with
  | EmptyString => EmptyString
  | String c s' => if isspace c then lstrip s' else s
  end.

Fixpoint rstrip (s : string) : string :=
  match s with
  | EmptyString => EmptyString
  | String c s' =>
      match rstrip s' with
      | EmptyString => if isspace c then EmptyString else String c EmptyString
      | r => String c r
      end
  end.

(** [s.strip()] *)
Definition strip (s : string) : string := rstrip (lstrip s).

(** Truth value of a string: [bool(s)]. *)
Definition truthy (s : string) : bool :=
  match s with EmptyString => false | _ => true end.

(** [s.endswith(c)] for a one-character suffix. *)
Fixpoint endswith (s : string) (c : ascii) : bool :=
  match s with
  | EmptyString => false
  | String a EmptyString => Ascii.eqb a c
  | String _ s' => endswith s' c
  end.

(** [c in s] for a one-character needle. *)
Fixpoint contains (s : string) (c : ascii) : bool :=
  match s with
  | EmptyString => false
  | String a s' => Ascii.eqb a c || contains s' c
  end.

(** [s[:-1]] *)
Fixpoint drop_last (s : string) : string :=
  match s with
  | EmptyString => EmptyString
  | String _ EmptyString => EmptyString
  | String a s' => String a (drop_last s')
  end.

End Py.

(** ** Exceptions and outcomes *)

Inductive Exn : Type :=
| ValueError (msg : string)
| TypeError (msg : string)
| RuntimeError (msg : string)
| sqlite3_Error (msg : string).

Inductive Outcome (A : Type) : Type :=
| Return (a : A)
| Raise (e : Exn).
Arguments Return {A} a.
Arguments Raise {A} e.

(** ** datetime *)

(** A naive [datetime.datetime]; every value built by this program has
    microsecond 0 and no tzinfo. *)
Record datetime : Type := mk_datetime {
  year : N; month : N; day : N; hour : N; minute : N; second : N
}.

Definition is_leap (y : N) : bool :=
  (((y mod 4 =? 0) && negb (y mod 100 =? 0)) || (y mod 400 =? 0))%N.

Definition days_in_month (y m : N) : N :=
  (if m =? 2 then (if is_leap y then 29 else 28)
   else if (m =? 4) || (m =? 6) || (m =? 9) || (m =? 11) then 30 else 31)%N.

(** The range checks of the [datetime] constructor. *)
Definition valid_datetime (d : datetime) : bool :=
  ((1 <=? year d) && (year d <=? 9999)
   && (1 <=? month d) && (month d <=? 12)
   && (1 <=? day d) && (day d <=? days_in_month (year d) (month d))
   && (hour d <? 24) && (minute d <? 60) && (second d <? 60))%N.




(** *** Text form

    The engine's [CURRENT_TIMESTAMP] is the text [YYYY-MM-DD HH:MM:SS]. *)

Definition digit (n : N) : ascii := ascii_of_N (48 + n).

Definition pad2 (n : N) : string :=
  String (digit (n / 10)) (String (digit (n mod 10)) EmptyString).

Definition pad4 (n : N) : string := pad2 (n / 100) ++ pad2 (n mod 100).

Definition CURRENT_TIMESTAMP (now : datetime) : string :=
  pad4 (year now) ++ "-" ++ pad2 (month now) ++ "-" ++ pad2 (day now) ++ " "
  ++ pad2 (hour now) ++ ":" ++ pad2 (minute now) ++ ":" ++ pad2 (second now).

Definition digit_val (c : ascii) : option N :=
  let n := N_of_ascii c in
  if ((48 <=? n) && (n <=? 57))%N then Some (n - 48)%N else None.

Definition obind {A B : Type} (o : option A) (k : A -> option B) : option B :=
  match o with Some a => k a | None => None end.

Definition num2 (a b : ascii) : option N :=
  obind (digit_val a) (fun x => obind (digit_val b) (fun y => Some (10 * x + y)%N)).

Definition num4 (a b c d : ascii) : option N :=
  obind (num2 a b) (fun x => obind (num2 c d) (fun y => Some (100 * x + y)%N)).

Definition guard (b : bool) (d : datetime) : option datetime :=
  if b then Some d else None.

(** The fixed-width reading [YYYY-MM-DDxHH:MM:SS]; [sep] says which
    characters may stand between the date and the time. *)
Definition parse19 (sep : ascii -> bool) (s : string) : option datetime :=
  match s with
  | String y1 (String y2 (String y3 (String y4 (String d1
    (String m1 (String m2 (String d2
    (String a1 (String a2 (String sp
    (String h1 (String h2 (String c1
    (String n1 (String n2 (String c2
    (String s1 (String s2 EmptyString)))))))))))))))))) =>
      obind (num4 y1 y2 y3 y4) (fun Y =>
      obind (num2 m1 m2) (fun M =>
      obind (num2 a1 a2) (fun D =>
      obind (num2 h1 h2) (fun h =>
      obind (num2 n1 n2) (fun mi =>
      obind (num2 s1 s2) (fun se =>
        let d := mk_datetime Y M D h mi se in
        guard (Ascii.eqb d1 "-" && Ascii.eqb d2 "-" && sep sp
               && Ascii.eqb c1 ":" && Ascii.eqb c2 ":" && valid_datetime d) d))))))
  | _ => None
  end.

(** [datetime.fromisoformat]: any single character separates date and time. *)
Definition fromisoformat (s : string) : Outcome datetime :=
  match parse19 (fun _ => true) s with
  | Some d => Return d
  | None => Raise (ValueError ("Invalid isoformat string: " ++ s))
  end.

(** [datetime.strptime(s, '%Y-%m-%d %H:%M:%S')] *)
Definition strptime (s : string) : Outcome datetime :=
  match parse19 Py.isspace s with
  | Some d => Return d
  | None => Raise (ValueError ("time data does not match format: " ++ s))
  end.

(** ** The Task entity ([src/models/task.py]) *)

Record Task : Type := mk_Task {
  id : option Z;
  description : string;
  status : string;
  created_at : datetime;
  completed_at : option datetime
}.

(** [not self.description or not self.description.strip()], for a
    description that may be [None]. *)
Definition description_is_empty (description : option string) : bool :=
  match description with
  | None => true
  | Some d => negb (Py.truthy d) || negb (Py.truthy (Py.strip d))
  end.

(** [Task(id=..., description=..., status=..., created_at=..., completed_at=...)]:
    the dataclass constructor followed by [__post_init__]. *)
Definition new_Task (id : option Z) (description : option string)
    (status : string) (created_at : datetime)
    (completed_at : option datetime) : Outcome Task :=
  match description with
  | None => Raise (ValueError "Description cannot be empty")
  | Some d =>
      if description_is_empty (Some d)
      then Raise (ValueError "Description cannot be empty")
      else
        let d' := Py.strip d in
        if (status =? "pending") && (match completed_at with Some _ => true | None => false end)
        then Raise (ValueError "Pending tasks cannot have a completion timestamp")
        else if (status =? "completed") && (match completed_at with Some _ => false | None => true end)
        then Raise (ValueError "Completed tasks must have a completion timestamp")
        else Return (mk_Task id d' status created_at completed_at)
  end.

(** ** The persistent table ([src/database/migrations.py]) *)

Module Sql.

(** A row of [tasks]. [description], [status] and [created_at] are declared
    [NOT NULL]; [completed_at] is nullable. *)
Record Row : Type := mk_Row {
  r_id : Z;
  r_description : string;
  r_status : string;
  r_created_at : string;
  r_completed_at : option string
}.

(** The table in ascending rowid order, with the counter kept by
    [AUTOINCREMENT] (the largest rowid ever used). *)
Record Database : Type := mk_Database {
  rows : list Row;
  seq : Z
}.

(** The table as [create_schema] creates it. *)
Definition empty : Database := mk_Database [] 0.

(** SQL [length(X)] on text: the number of characters before the first NUL. *)
Fixpoint length (s : string) : nat :=
  match s with
  | EmptyString => O
  | String c s' => if Ascii.eqb c "000" then O else S (length s')
  end.

(** [CHECK(length(description) > 0)] *)
Definition check_description (r : Row) : bool :=
  negb (Nat.eqb (length (r_description r)) 0).

(** [CHECK(status IN ('pending', 'completed'))] *)
Definition check_status (r : Row) : bool :=
  (r_status r =? "pending") || (r_status r =? "completed").

(** [CONSTRAINT valid_completion CHECK (...)] *)
Definition valid_completion (r : Row) : bool :=
  ((r_status r =? "pending")
     && match r_completed_at r with None => true | Some _ => false end)
  || ((r_status r =? "completed")
     && match r_completed_at r with None => false | Some _ => true end).

Definition check_constraints (r : Row) : bool :=
  check_description r && check_status r && valid_completion r.

Fixpoint max_rowid (l : list Row) : Z :=
  match l with
  | [] => 0
  | r :: l' => Z.max (r_id r) (max_rowid l')
  end.

(** The rowid that [AUTOINCREMENT] gives to the next inserted row. *)
Definition next_rowid (db : Database) : Z :=
  Z.max (seq db) (max_rowid (rows db)) + 1.

Definition has_id (i : Z) (r : Row) : bool := Z.eqb (r_id r) i.

(** Insertion at the place of the rowid. *)
Fixpoint place (r : Row) (l : list Row) : list Row :=
  match l with
  | [] => [r]
  | x :: l' => if Z.ltb (r_id r) (r_id x) then r :: l else x :: place r l'
  end.

(** Engine-level statements, as any client of the database file may issue
    them. [INSERT] with [None] for the id lets the engine choose it. An
    [UPDATE] assigns the four data columns of the rows selected. *)
Inductive Statement : Type :=
| INSERT (i : option Z) (description status created : string)
         (completed : option string)
| UPDATE (where_ : Row -> bool)
         (set : Row -> string * string * string * option string)
| DELETE (where_ : Row -> bool).

Definition assign (set : Row -> string * string * string * option string)
    (r : Row) : Row :=
  match set r with
  | (d, s, c, k) => mk_Row (r_id r) d s c k
  end.

Definition apply_update (where_ : Row -> bool)
    (set : Row -> string * string * string * option string) (r : Row) : Row :=
  if where_ r then assign set r else r.

Inductive Error : Type :=
| IntegrityError (msg : string).

(** The effect of one statement: the new table and the number of rows
    changed ([cursor.rowcount]), or a constraint violation, in which case
    the statement changes nothing. *)
Definition execute (st : Statement) (db : Database)
  : Error + (Database * nat) :=
  match st with
  | INSERT i d s c k =>
      let n := match i with Some n => n | None => next_rowid db end in
      let r := mk_Row n d s c k in
      if existsb (has_id n) (rows db)
      then inl (IntegrityError "UNIQUE constraint failed: tasks.id")
      else if check_constraints r
      then inr (mk_Database (place r (rows db)) (Z.max (seq db) n), 1%nat)
      else inl (IntegrityError "CHECK constraint failed")
  | UPDATE w set =>
      let hit := filter w (rows db) in
      if forallb check_constraints (map (assign set) hit)
      then inr (mk_Database (map (apply_update w set) (rows db)) (seq db),
                List.length hit)
      else inl (IntegrityError "CHECK constraint failed")
  | DELETE w =>
      inr (mk_Database (filter (fun r => negb (w r)) (rows db)) (seq db),
           List.length (filter w (rows db)))
  end.

(** *** Reading

    An index holds its entries in ascending order of (key, rowid); a
    descending [ORDER BY] served by the index reads it backwards. A sort
    that no index serves keeps rows of equal key in the order of the scan. *)

(** Comparison of column values: [NULL] sorts before every text, and
    texts compare character by character. *)
Definition key_compare (a b : option string) : comparison :=
  match a, b with
  | None, None => Eq
  | None, Some _ => Lt
  | Some _, None => Gt
  | Some x, Some y => String.compare x y
  end.

Definition key_ltb (a b : option string) : bool :=
  match key_compare a b with Lt => true | _ => false end.

(** Insertion into a list that descends by [key], behind no row of equal key. *)
Fixpoint insert_desc (key : Row -> option string) (r : Row) (l : list Row)
  : list Row :=
  match l with
  | [] => [r]
  | x :: l' =>
      if key_ltb (key r) (key x) then x :: insert_desc key r l' else r :: l
  end.

(** [ORDER BY key DESC] through the sorter. *)
Fixpoint sort_desc (key : Row -> option string) (l : list Row) : list Row :=
  match l with
  | [] => []
  | r :: l' => insert_desc key r (sort_desc key l')
  end.

(** Order of the entries of an index on [key]: by key, then by rowid. *)
Definition entry_ltb (key : Row -> option string) (a b : Row) : bool :=
  match key_compare (key a) (key b) with
  | Lt => true
  | Eq => Z.ltb (r_id a) (r_id b)
  | Gt => false
  end.

Fixpoint index_insert (key : Row -> option string) (r : Row) (l : list Row)
  : list Row :=
  match l with
  | [] => [r]
  | x :: l' =>
      if entry_ltb key r x then r :: l else x :: index_insert key r l'
  end.

Fixpoint index_on (key : Row -> option string) (l : list Row) : list Row :=
  match l with
  | [] => []
  | r :: l' => index_insert key r (index_on key l')
  end.

Definition created_key (r : Row) : option string := Some (r_created_at r).
Definition completed_key (r : Row) : option string := r_completed_at r.

(** [CREATE INDEX idx_tasks_created_at ON tasks(created_at)] *)
Definition idx_tasks_created_at (db : Database) : list Row :=
  index_on created_key (rows db).

(** [CREATE INDEX idx_tasks_status ON tasks(status)] restricted to one status *)
Definition idx_tasks_status (s : string) (db : Database) : list Row :=
  filter (fun r => r_status r =? s) (rows db).

End Sql.

(** ** Connections and transactions ([src/database/connection.py]) *)

(** The database as the file holds it ([durable]) and as the open
    transaction sees it ([txn]). *)
Record Storage : Type := mk_Storage {
  durable : Sql.Database;
  txn : Sql.Database
}.

Definition at_rest (db : Sql.Database) : Storage := mk_Storage db db.

(** The calls on the engine that a method makes; [Execute k] is the
    [k]-th [cursor.execute] of the method. *)
Inductive Call : Type :=
| Connect
| Execute (k : nat)
| Commit.

(** The failures of the engine: the message of the error raised by a call,
    if it fails. *)
Definition Faults : Type := Call -> option string.

Definition no_faults : Faults := fun _ => None.

(** Computations on a connection that may raise. *)
Definition M (A : Type) : Type := Storage -> Outcome A * Storage.

Definition ret {A : Type} (a : A) : M A := fun s => (Return a, s).

Definition raise {A : Type} (e : Exn) : M A := fun s => (Raise e, s).

Definition bind {A B : Type} (m : M A) (k : A -> M B) : M B :=
  fun s =>
    match m s with
    | (Return a, s') => k a s'
    | (Raise e, s') => (Raise e, s')
    end.

Definition lift {A : Type} (o : Outcome A) : M A := fun s => (o, s).

Notation "x <- m ;; k" := (bind m (fun x => k))
  (at level 61, m at next level, right associativity).

(** [try: body / except sqlite3.Error as e: handler] *)
Definition try_except {A : Type} (body : M A) (handler : string -> M A) : M A :=
  fun s =>
    match body s with
    | (Raise (sqlite3_Error msg), s') => handler msg s'
    | r => r
    end.

(** [try: body / finally: fin], for a [fin] that does not raise. *)
Definition try_finally {A : Type} (body : M A) (fin : Storage -> Storage) : M A :=
  fun s => let (r, s') := body s in (r, fin s').

Record Cursor : Type := mk_Cursor {
  rowcount : nat;
  lastrowid : Z
}.

Definition rowid_of (st : Sql.Statement) (db : Sql.Database) : Z :=
  match st with
  | Sql.INSERT (Some n) _ _ _ _ => n
  | Sql.INSERT None _ _ _ _ => Sql.next_rowid db
  | _ => 0
  end.

(** [cursor.execute] of a writing statement, inside the open transaction. *)
Definition cursor_execute (f : Faults) (k : nat) (st : Sql.Statement) : M Cursor :=
  fun s =>
    match f (Execute k) with
    | Some msg => (Raise (sqlite3_Error msg), s)
    | None =>
        match Sql.execute st (txn s) with
        | inl (Sql.IntegrityError msg) => (Raise (sqlite3_Error msg), s)
        | inr (db', n) =>
            (Return (mk_Cursor n (rowid_of st (txn s))),
             mk_Storage (durable s) db')
        end
    end.

(** [cursor.execute] of a [SELECT], followed by the fetch of its rows. *)
Definition cursor_select {A : Type} (f : Faults) (k : nat)
    (q : Sql.Database -> A) : M A :=
  fun s =>
    match f (Execute k) with
    | Some msg => (Raise (sqlite3_Error msg), s)
    | None => (Return (q (txn s)), s)
    end.

(** [connection.commit()] *)
Definition commit (f : Faults) : M unit :=
  fun s =>
    match f Commit with
    | Some msg => (Raise (sqlite3_Error msg), s)
    | None => (Return tt, mk_Storage (txn s) (txn s))
    end.

(** [connection.rollback()] *)
Definition rollback : M unit :=
  fun s => (Return tt, mk_Storage (durable s) (durable s)).

(** [get_connection(database_path)]: a new connection sees what the file
    holds; a failure of [sqlite3.connect] or of a [PRAGMA] is raised again
    as [sqlite3.Error]. *)
Definition get_connection (database_path : string) (f : Faults) : M unit :=
  fun s =>
    match f Connect with
    | Some msg =>
        (Raise (sqlite3_Error ("Failed to connect to database '"
                               ++ database_path ++ "': " ++ msg)), s)
    | None => (Return tt, mk_Storage (durable s) (durable s))
    end.

(** [close_connection(connection)]: closing drops whatever the connection
    has not committed, and never raises. *)
Definition close_connection (s : Storage) : Storage :=
  mk_Storage (durable s) (durable s).

(** ** The repository ([src/database/repository.py]) *)

Record SQLiteTaskRepository : Type := mk_repository {
  database_path : string
}.

(** [self._connection] is set exactly for the in-memory database. *)
Definition keeps_connection (self : SQLiteTaskRepository) : bool :=
  database_path self =? ":memory:".

(** [self._get_connection()]: the kept connection, or a new one on the file. *)
Definition _get_connection (self : SQLiteTaskRepository) (f : Faults) : M unit :=
  fun s =>
    if keeps_connection self then (Return tt, s)
    else get_connection (database_path self) f s.

(** [if not self._connection: close_connection(connection)] *)
Definition release (self : SQLiteTaskRepository) (s : Storage) : Storage :=
  if keeps_connection self then s else close_connection s.

(** The three-way reading of a stored timestamp in [_row_to_task]. *)
Definition read_timestamp (s : string) : Outcome datetime :=
  if Py.endswith s "Z" then fromisoformat (Py.drop_last s)
  else if Py.contains s "T" then fromisoformat s
  else strptime s.

Definition _row_to_task (row : Sql.Row) : Outcome Task :=
  match read_timestamp (Sql.r_created_at row) with
  | Raise e => Raise e
  | Return created =>
      let completed :=
        match Sql.r_completed_at row with
        | Some c =>
            if Py.truthy c
            then match read_timestamp c with
                 | Return t => Return (Some t)
                 | Raise e => Raise e
                 end
            else Return None
        | None => Return None
        end in
      match completed with
      | Raise e => Raise e
      | Return completed =>
          new_Task (Some (Sql.r_id row)) (Some (Sql.r_description row))
                   (Sql.r_status row) created completed
      end
  end.

(** [[self._row_to_task(row) for row in rows]] *)
Fixpoint rows_to_tasks (l : list Sql.Row) : Outcome (list Task) :=
  match l with
  | [] => Return []
  | row :: l' =>
      match _row_to_task row with
      | Raise e => Raise e
      | Return t =>
          match rows_to_tasks l' with
          | Raise e => Raise e
          | Return ts => Return (t :: ts)
          end
      end
  end.

(** The statements of the methods. *)

Definition insert_task (description : string) (now : datetime) : Sql.Statement :=
  Sql.INSERT None description "pending" (CURRENT_TIMESTAMP now) None.

Definition update_completed (task_id : Z) (now : datetime) : Sql.Statement :=
  Sql.UPDATE
    (fun r => Sql.has_id task_id r && (Sql.r_status r =? "pending"))
    (fun r => (Sql.r_description r, "completed", Sql.r_created_at r,
               Some (CURRENT_TIMESTAMP now))).

Definition delete_by_id (task_id : Z) : Sql.Statement :=
  Sql.DELETE (Sql.has_id task_id).

(** [SELECT ... FROM tasks WHERE id = ?], first row *)
Definition select_by_id (task_id : Z) (db : Sql.Database) : option Sql.Row :=
  find (Sql.has_id task_id) (Sql.rows db).

(** [SELECT ... FROM tasks ORDER BY created_at DESC]: the index on
    [created_at], backwards. *)
Definition select_all (db : Sql.Database) : list Sql.Row :=
  rev (Sql.idx_tasks_created_at db).

(** [SELECT ... WHERE status = 'pending' ORDER BY created_at DESC]: the rows
    of the status through the index on [status], then sorted. *)
Definition select_pending (db : Sql.Database) : list Sql.Row :=
  Sql.sort_desc Sql.created_key (Sql.idx_tasks_status "pending" db).

(** [SELECT ... WHERE status = 'completed' ORDER BY completed_at DESC] *)
Definition select_completed (db : Sql.Database) : list Sql.Row :=
  Sql.sort_desc Sql.completed_key (Sql.idx_tasks_status "completed" db).

Definition create_task (self : SQLiteTaskRepository) (f : Faults)
    (now : datetime) (description : option string) : M Task :=
  match description with
  | None => raise (ValueError "Description cannot be empty")
  | Some d =>
      if description_is_empty (Some d)
      then raise (ValueError "Description cannot be empty")
      else
        _ <- _get_connection self f ;;
        try_finally
          (try_except
             (cur <- cursor_execute f 0 (insert_task (Py.strip d) now) ;;
              let task_id := lastrowid cur in
              row <- cursor_select f 1 (select_by_id task_id) ;;
              _ <- commit f ;;
              match row with
              | None => raise (TypeError "'NoneType' object is not subscriptable")
              | Some row =>
                  created <- lift (fromisoformat (Sql.r_created_at row)) ;;
                  lift (new_Task (Some (Sql.r_id row))
                                 (Some (Sql.r_description row))
                                 (Sql.r_status row) created None)
              end)
             (fun e =>
                _ <- rollback ;;
                raise (RuntimeError ("Failed to create task: " ++ e))))
          (release self)
  end.

Definition mark_completed (self : SQLiteTaskRepository) (f : Faults)
    (now : datetime) (task_id : Z) : M bool :=
  _ <- _get_connection self f ;;
  try_finally
    (try_except
       (cur <- cursor_execute f 0 (update_completed task_id now) ;;
        let rows_affected := rowcount cur in
        _ <- commit f ;;
        ret (Nat.eqb rows_affected 1))
       (fun e =>
          _ <- rollback ;;
          raise (RuntimeError ("Failed to mark task completed: " ++ e))))
    (release self).

Definition delete_task (self : SQLiteTaskRepository) (f : Faults)
    (task_id : Z) : M bool :=
  _ <- _get_connection self f ;;
  try_finally
    (try_except
       (cur <- cursor_execute f 0 (delete_by_id task_id) ;;
        let rows_affected := rowcount cur in
        _ <- commit f ;;
        ret (Nat.eqb rows_affected 1))
       (fun e =>
          _ <- rollback ;;
          raise (RuntimeError ("Failed to delete task: " ++ e))))
    (release self).

Definition query (self : SQLiteTaskRepository) (f : Faults)
    (select : Sql.Database -> list Sql.Row) (what : string) : M (list Task) :=
  _ <- _get_connection self f ;;
  try_finally
    (try_except
       (rows <- cursor_select f 0 select ;;
        lift (rows_to_tasks rows))
       (fun e => raise (RuntimeError ("Failed to retrieve " ++ what ++ ": " ++ e))))
    (release self).

Definition get_all_tasks (self : SQLiteTaskRepository) (f : Faults)
  : M (list Task) :=
  query self f select_all "all tasks".

Definition get_pending_tasks (self : SQLiteTaskRepository) (f : Faults)
  : M (list Task) :=
  query self f select_pending "pending tasks".

Definition get_completed_tasks (self : SQLiteTaskRepository) (f : Faults)
  : M (list Task) :=
  query self f select_completed "completed tasks".

Definition get_task_by_id (self : SQLiteTaskRepository) (f : Faults)
    (task_id : Z) : M (option Task) :=
  _ <- _get_connection self f ;;
  try_finally
    (try_except
       (row <- cursor_select f 0 (select_by_id task_id) ;;
        match row with
        | Some row => t <- lift (_row_to_task row) ;; ret (Some t)
        | None => ret None
        end)
       (fun e => raise (RuntimeError ("Failed to retrieve task by ID: " ++ e))))
    (release self).

(** *** Sample runs *)

Definition memory_repo : SQLiteTaskRepository := mk_repository ":memory:".
Definition file_repo : SQLiteTaskRepository := mk_repository "todo.db".

Definition t0 : datetime := mk_datetime 2024 1 15 10 30 0.
Definition t1 : datetime := mk_datetime 2024 1 15 10 30 1.

(** ** Predicates on stores and results *)

(** The invariant of the data model on a stored row and on a Task. *)
Definition row_invariant (r : Sql.Row) : Prop :=
  Sql.r_status r = "pending" <-> Sql.r_completed_at r = None.

Definition task_invariant (t : Task) : Prop :=
  status t = "pending" <-> completed_at t = None.

(** Rowids strictly ascending: the table order, which also makes the
    primary key unique. *)
Fixpoint ascending (l : list Sql.Row) : bool :=
  match l with
  | [] => true
  | r :: l' =>
      match l' with
      | [] => true
      | x :: _ => Z.ltb (Sql.r_id r) (Sql.r_id x)
      end && ascending l'
  end.

(** What the declarations of [create_schema] guarantee of a table. *)
Definition schema_ok (db : Sql.Database) : bool :=
  ascending (Sql.rows db) && forallb Sql.check_constraints (Sql.rows db).

(** A timestamp in the engine's own format, of a valid datetime. *)
Definition stamp_ok (s : string) : bool :=
  match parse19 Py.isspace s with
  | Some d => s =? CURRENT_TIMESTAMP d
  | None => false
  end.

(** A row as the repository writes it: trimmed non-empty description and
    timestamps in the engine's format. *)
Definition row_ok (r : Sql.Row) : bool :=
  Py.truthy (Sql.r_description r)
  && (Py.strip (Sql.r_description r) =? Sql.r_description r)
  && stamp_ok (Sql.r_created_at r)
  && match Sql.r_completed_at r with
     | Some c => stamp_ok c
     | None => true
     end.

Definition repo_ok (db : Sql.Database) : bool :=
  schema_ok db && forallb row_ok (Sql.rows db).

(** The datetime that a stored timestamp stands for. *)
Definition stamp (s : string) : datetime :=
  match parse19 Py.isspace s with
  | Some d => d
  | None => mk_datetime 1 1 1 0 0 0
  end.

(** The Task that [_row_to_task] builds from a well-formed row. *)
Definition task_of_row (r : Sql.Row) : Task :=
  mk_Task (Some (Sql.r_id r)) (Sql.r_description r) (Sql.r_status r)
          (stamp (Sql.r_created_at r))
          (option_map stamp (Sql.r_completed_at r)).

(** The stores that the repository can reach from the empty table, by its
    three writing methods, under an engine that may fail and a clock that
    gives valid datetimes. *)
Inductive reachable (self : SQLiteTaskRepository) : Storage -> Prop :=
| reach_empty : reachable self (at_rest Sql.empty)
| reach_create s f now d :
    reachable self s -> valid_datetime now = true ->
    reachable self (snd (create_task self f now d s))
| reach_complete s f now i :
    reachable self s ->  valid_datetime now = true ->
    reachable self (snd (mark_completed self f now i s))
| reach_delete s f i :
    reachable self s ->
    reachable self (snd (delete_task self f i s)).



(** The exceptions by which a failure of the storage reaches the caller:
    [RuntimeError] from the handlers of the methods, [sqlite3.Error] from
    [get_connection]. *)
Definition is_storage_error (e : Exn) : bool :=
  match e with
  | RuntimeError _ | sqlite3_Error _ => true
  | ValueError _ | TypeError _ => false
  end.

(** Whether a call fails under an oracle. *)
Definition fails (f : Faults) (c : Call) : bool :=
  match f c with Some _ => true | None => false end.

(** The rows that [mark_completed] updates, and the new row. *)
Definition is_pending (i : Z) (r : Sql.Row) : bool :=
  Sql.has_id i r && (Sql.r_status r =? "pending").

Definition complete_row (now : datetime) (r : Sql.Row) : Sql.Row :=
  Sql.mk_Row (Sql.r_id r) (Sql.r_description r) "completed"
             (Sql.r_created_at r) (Some (CURRENT_TIMESTAMP now)).

(** The table after the update of [mark_completed]. *)
Definition completed_db (i : Z) (now : datetime) (db : Sql.Database)
  : Sql.Database :=
  Sql.mk_Database
    (map (fun r => if is_pending i r then complete_row now r else r)
         (Sql.rows db))
    (Sql.seq db).

(** The table after the deletion of [delete_task]. *)
Definition deleted_db (i : Z) (db : Sql.Database) : Sql.Database :=
  Sql.mk_Database (filter (fun r => negb (Sql.has_id i r)) (Sql.rows db))
                  (Sql.seq db).

(** The row that [create_task] inserts, and the table after it. *)
Definition created_row (d : string) (now : datetime) (db : Sql.Database)
  : Sql.Row :=
  Sql.mk_Row (Sql.next_rowid db) (Py.strip d) "pending"
             (CURRENT_TIMESTAMP now) None.

Definition created_db (d : string) (now : datetime) (db : Sql.Database)
  : Sql.Database :=
  Sql.mk_Database (Sql.rows db ++ [created_row d now db])%list
                  (Sql.next_rowid db).



(** The calls on the engine that each kind of method makes. *)
Definition connect_call (self : SQLiteTaskRepository) : list Call :=
  if keeps_connection self then [] else [Connect].

Definition calls_of_create (self : SQLiteTaskRepository) : list Call :=
  (connect_call self ++ [Execute 0; Execute 1; Commit])%list.

Definition calls_of_write (self : SQLiteTaskRepository) : list Call :=
  (connect_call self ++ [Execute 0; Commit])%list.

Definition calls_of_read (self : SQLiteTaskRepository) : list Call :=
  (connect_call self ++ [Execute 0])%list.

Definition some_fail (f : Faults) (calls : list Call) : bool :=
  existsb (fails f) calls.

(** An oracle under which exactly the given call fails. *)
Definition fail_at (c : Call) (msg : string) : Faults :=
  fun c' =>
    match c, c' with
    | Connect, Connect => Some msg
    | Commit, Commit => Some msg
    | Execute k, Execute k' => if Nat.eqb k k' then Some msg else None
    | _, _ => None
    end.

(** Sample stores. *)
Definition sample_db : Sql.Database :=
  Sql.mk_Database
    [Sql.mk_Row 1 "Buy groceries" "completed" "2024-01-15 10:30:00"
                (Some "2024-01-15 10:30:01");
     Sql.mk_Row 2 "Walk the dog" "pending" "2024-01-15 10:30:00" None]
    2.

(** Descriptions that are [None], empty or made of white space only. *)
Fixpoint all_space (s : string) : bool :=
  match s with
  | EmptyString => true
  | String c s' => Py.isspace c && all_space s'
  end.

Definition blank (description : option string) : bool :=
  match description with
  | None => true
  | Some d => all_space d
  end.

(** A description that starts with the NUL character. *)
Definition nul_description : string := String "000" "abc".

(** Orders on rows: by rowid; by a sort key, descending; by the entries
    of an index, ascending. *)
Definition lt_id (a b : Sql.Row) : Prop := (Sql.r_id a < Sql.r_id b)%Z.





(** ** The form and the controller ([src/ui/models.py], [src/ui/controller.py]) *)

Inductive ViewMode : Type :=
| ACTIVE_TASKS
| COMPLETED_TASKS
| ALL_TASKS.

Record TaskFormData : Type := mk_TaskFormData {
  fd_description : string;
  is_valid : bool;
  error_message : option string
}.

(** [TaskFormData.validate]: the answer and the form as the call leaves it. *)
Definition validate (form_data : TaskFormData) : bool * TaskFormData :=
  let description := Py.strip (fd_description form_data) in
  if negb (Py.truthy description)
  then (false, mk_TaskFormData (fd_description form_data) false
                 (Some "Task description cannot be empty"))
  else if Nat.ltb 500 (String.length description)
  then (false, mk_TaskFormData (fd_description form_data) false
                 (Some "Task description must be 500 characters or less"))
  else (true, mk_TaskFormData (fd_description form_data) true None).

Module StreamlitUIController.

(** [validate_task_form] *)
Definition validate_task_form (form_data : TaskFormData) : bool * TaskFormData :=
  validate form_data.

(** [get_tasks_for_view] *)
Definition get_tasks_for_view (repository : SQLiteTaskRepository) (f : Faults)
    (view_mode : ViewMode) : M (list Task) :=
  match view_mode with
  | ACTIVE_TASKS => get_pending_tasks repository f
  | COMPLETED_TASKS => get_completed_tasks repository f
  | ALL_TASKS => get_all_tasks repository f
  end.

(** [create_new_task]: the answer with the form as the call leaves it.
    [ValueError] and [RuntimeError] of the repository are caught; any other
    exception passes. *)
Definition create_new_task (repository : SQLiteTaskRepository) (f : Faults)
    (now : datetime) (form_data : TaskFormData) : M (bool * TaskFormData) :=
  let (ok, form_data') := validate_task_form form_data in
  if negb ok then ret (false, form_data')
  else
    fun s =>
      match create_task repository f now
              (Some (Py.strip (fd_description form_data'))) s with
      | (Return _, s') => (Return (true, form_data'), s')
      | (Raise (ValueError _), s') | (Raise (RuntimeError _), s') =>
          (Return (false,
                   mk_TaskFormData (fd_description form_data')
                     (is_valid form_data')
                     (Some "Failed to create task. Please try again.")), s')
      | (Raise e, s') => (Raise e, s')
      end.

(** [complete_task]: [RuntimeError] of the repository is caught. *)
Definition complete_task (repository : SQLiteTaskRepository) (f : Faults)
    (now : datetime) (task_id : Z) : M bool :=
  fun s =>
    match mark_completed repository f now task_id s with
    | (Raise (RuntimeError _), s') => (Return false, s')
    | r => r
    end.

(** [delete_task]: [RuntimeError] of the repository is caught. *)
Definition delete_task (repository : SQLiteTaskRepository) (f : Faults)
    (task_id : Z) : M bool :=
  fun s =>
    match delete_task repository f task_id s with
    | (Raise (RuntimeError _), s') => (Return false, s')
    | r => r
    end.

End StreamlitUIController.

(** The ISO 8601 text of a datetime, with a given character between date
    and time: [YYYY-MM-DDxHH:MM:SS]. *)
Definition isoformat (sep : ascii) (d : datetime) : string :=
  pad4 (year d) ++ "-" ++ pad2 (month d) ++ "-" ++ pad2 (day d)
  ++ String sep (pad2 (hour d) ++ ":" ++ pad2 (minute d) ++ ":"
                 ++ pad2 (second d)).

(** The stores that the repository can reach from a given store, by any
    number of calls of its three writing methods. *)
Inductive evolves (self : SQLiteTaskRepository) : Storage -> Storage -> Prop :=
| ev_refl s : evolves self s s
| ev_create s s' f now d :
    evolves self s s' ->
    evolves self s (snd (create_task self f now d s'))
| ev_complete s s' f now i :
    evolves self s s' ->
    evolves self s (snd (mark_completed self f now i s'))
| ev_delete s s' f i :
    evolves self s s' ->
    evolves self s (snd (delete_task self f i s')).

(** No rowid of the table exceeds the counter of [AUTOINCREMENT]. *)
Definition ids_ok (db : Sql.Database) : Prop :=
  schema_ok db = true
  /\ forall r, In r (Sql.rows db) -> (Sql.r_id r <= Sql.seq db)%Z.

(** ** The schema ([src/database/migrations.py]) *)

Module Migrations.

(** The table [tasks] as [sqlite_master] lists it: its content, and which
    of its three indexes exist. *)
Record Table : Type := mk_Table {
  content : Sql.Database;
  idx_tasks_status : bool;
  idx_tasks_created_at : bool;
  idx_tasks_completed_at : bool
}.

(** The schema of a database: the table, if it exists. An index exists
    only with its table. *)
Definition Schema : Type := option Table.

Inductive Index : Type :=
| on_status
| on_created_at
| on_completed_at.

Inductive Statement : Type :=
| CREATE_TABLE_IF_NOT_EXISTS
| CREATE_INDEX_IF_NOT_EXISTS (i : Index)
| DROP_INDEX_IF_EXISTS (i : Index)
| DROP_TABLE_IF_EXISTS.

Definition set_index (i : Index) (b : bool) (t : Table) : Table :=
  match i with
  | on_status =>
      mk_Table (content t) b (idx_tasks_created_at t) (idx_tasks_completed_at t)
  | on_created_at =>
      mk_Table (content t) (idx_tasks_status t) b (idx_tasks_completed_at t)
  | on_completed_at =>
      mk_Table (content t) (idx_tasks_status t) (idx_tasks_created_at t) b
  end.

(** The statements of the module, as the engine runs them. A new table is
    empty and its counter of [AUTOINCREMENT] starts again; an index cannot
    be created on a table that is not there; dropping the table drops its
    indexes. *)
Definition execute (st : Statement) (c : Schema) : string + Schema :=
  match st, c with
  | CREATE_TABLE_IF_NOT_EXISTS, None =>
      inr (Some (mk_Table Sql.empty false false false))
  | CREATE_TABLE_IF_NOT_EXISTS, Some t => inr (Some t)
  | CREATE_INDEX_IF_NOT_EXISTS _, None => inl "no such table: main.tasks"
  | CREATE_INDEX_IF_NOT_EXISTS i, Some t => inr (Some (set_index i true t))
  | DROP_INDEX_IF_EXISTS _, None => inr None
  | DROP_INDEX_IF_EXISTS i, Some t => inr (Some (set_index i false t))
  | DROP_TABLE_IF_EXISTS, _ => inr None
  end.

(** A connection: the schema as the database holds it ([stored]), as the
    connection sees it ([seen]), and whether a transaction is open. *)
Record Connection : Type := mk_Connection {
  stored : Schema;
  seen : Schema;
  in_transaction : bool
}.

Definition D (A : Type) : Type := Connection -> Outcome A * Connection.

Definition and_then {A B : Type} (m : D A) (k : A -> D B) : D B :=
  fun c =>
    match m c with
    | (Return a, c') => k a c'
    | (Raise e, c') => (Raise e, c')
    end.

Local Notation "x <-- m ;; k" := (and_then m (fun x => k))
  (at level 61, m at next level, right associativity).

(** [cursor.execute] of a statement on the schema. The [sqlite3] module
    opens no transaction for such a statement: outside a transaction it
    is committed at once, inside one it waits for the commit. *)
Definition cursor_execute (f : Faults) (k : nat) (st : Statement) : D unit :=
  fun c =>
    match f (Execute k) with
    | Some msg => (Raise (sqlite3_Error msg), c)
    | None =>
        match execute st (seen c) with
        | inl msg => (Raise (sqlite3_Error msg), c)
        | inr v =>
            (Return tt,
             if in_transaction c then mk_Connection (stored c) v true
             else mk_Connection v v false)
        end
    end.

(** [connection.commit()]: with no transaction open it does nothing. *)
Definition commit (f : Faults) : D unit :=
  fun c =>
    if in_transaction c then
      match f Commit with
      | Some msg => (Raise (sqlite3_Error msg), c)
      | None => (Return tt, mk_Connection (seen c) (seen c) false)
      end
    else (Return tt, c).

(** [connection.rollback()]: with no transaction open it does nothing. *)
Definition rollback : D unit :=
  fun c =>
    (Return tt,
     if in_transaction c then mk_Connection (stored c) (stored c) false
     else c).

(** The oracle of a function called after [n] executes of its caller. *)
Definition after (n : nat) (f : Faults) : Faults :=
  fun c =>
    match c with
    | Execute k => f (Execute (n + k))
    | _ => f c
    end.

(** [create_indexes(cursor)] *)
Definition create_indexes (f : Faults) : D unit :=
  _ <-- cursor_execute f 0 (CREATE_INDEX_IF_NOT_EXISTS on_status) ;;
  _ <-- cursor_execute f 1 (CREATE_INDEX_IF_NOT_EXISTS on_created_at) ;;
  cursor_execute f 2 (CREATE_INDEX_IF_NOT_EXISTS on_completed_at).

(** [try: body / except sqlite3.Error as e: connection.rollback(); raise
    sqlite3.Error(prefix + e)] *)
Definition or_rollback (prefix : string) (body : D unit) : D unit :=
  fun c =>
    match body c with
    | (Raise (sqlite3_Error msg), c') =>
        (_ <-- rollback ;;
         fun c'' => (Raise (sqlite3_Error (prefix ++ msg)), c'')) c'
    | r => r
    end.

(** [create_schema(connection)] *)
Definition create_schema (f : Faults) : D unit :=
  or_rollback "Failed to create schema: "
    (_ <-- cursor_execute f 0 CREATE_TABLE_IF_NOT_EXISTS ;;
     _ <-- create_indexes (after 1 f) ;;
     commit f).

(** [drop_schema(connection)] *)
Definition drop_schema (f : Faults) : D unit :=
  or_rollback "Failed to drop schema: "
    (_ <-- cursor_execute f 0 (DROP_INDEX_IF_EXISTS on_completed_at) ;;
     _ <-- cursor_execute f 1 (DROP_INDEX_IF_EXISTS on_created_at) ;;
     _ <-- cursor_execute f 2 (DROP_INDEX_IF_EXISTS on_status) ;;
     _ <-- cursor_execute f 3 DROP_TABLE_IF_EXISTS ;;
     commit f).

(** [get_schema_version(connection)]: the [SELECT] on [sqlite_master]
    opens no transaction; its failure is answered by [None]. *)
Definition get_schema_version (f : Faults) : D (option string) :=
  fun c =>
    match f (Execute 0) with
    | Some _ => (Return None, c)
    | None =>
        (Return (match seen c with
                 | Some _ => Some "1.0.0"
                 | None => None
                 end), c)
    end.

(** [get_connection(database_path)], on a database whose file holds
    [disk]: a new connection on a file sees what the file holds, and a new
    connection on [:memory:] has a new database, with no table. *)
Definition get_connection (database_path : string) (f : Faults)
    (disk : Schema) : Outcome Connection :=
  match f Connect with
  | Some msg =>
      Raise (sqlite3_Error ("Failed to connect to database '"
                            ++ database_path ++ "': " ++ msg))
  | None =>
      Return (if database_path =? ":memory:"
              then mk_Connection None None false
              else mk_Connection disk disk false)
  end.

(** [close_connection(connection)]: what the file holds afterwards. What
    the connection has not committed is lost, and so is the whole
    database of a connection on [:memory:]. *)
Definition close_connection (database_path : string) (c : Connection)
    (disk : Schema) : Schema :=
  if database_path =? ":memory:" then disk else stored c.

(** The table with its three indexes, as [create_schema] leaves it. *)
Definition indexed (t : Table) : Table := mk_Table (content t) true true true.

(** The table that [create_schema] finds or creates. *)
Definition found_or_new (c : Schema) : Table :=
  match c with
  | Some t => t
  | None => mk_Table Sql.empty false false false
  end.

(** A connection with no transaction open. *)
Definition idle (c : Schema) : Connection := mk_Connection c c false.

(** The first of the calls that fails, with its message. *)
Fixpoint first_failure (f : Faults) (calls : list Call) : option (Call * string) :=
  match calls with
  | [] => None
  | c :: calls' =>
      match f c with
      | Some msg => Some (c, msg)
      | None => first_failure f calls'
      end
  end.

(** The calls of [create_schema] and of [drop_schema] that can fail: the
    commit is one of them only when a transaction is open. *)
Definition calls_of_create_schema (c : Connection) : list Call :=
  [Execute 0; Execute 1; Execute 2; Execute 3]
  ++ (if in_transaction c then [Commit] else []).

Definition calls_of_drop_schema (c : Connection) : list Call :=
  [Execute 0; Execute 1; Execute 2; Execute 3]
  ++ (if in_transaction c then [Commit] else []).

End Migrations.

(** ** The construction of the repository ([src/database/repository.py]) *)

(** [self._ensure_schema_exists()], with [self._connection] and what the
    file holds as state. *)
Definition _ensure_schema_exists (self : SQLiteTaskRepository)
    (_connection : option Migrations.Connection) (f : Faults)
    (disk : Migrations.Schema)
  : Outcome unit * (option Migrations.Connection * Migrations.Schema) :=
  match _connection with
  | Some c =>
      let (r, c') := Migrations.create_schema f c in (r, (Some c', disk))
  | None =>
      match Migrations.get_connection (database_path self) f disk with
      | Raise e => (Raise e, (None, disk))
      | Return c =>
          let (r, c') := Migrations.create_schema f c in
          (r, (None, Migrations.close_connection (database_path self) c' disk))
      end
  end.

(** [SQLiteTaskRepository(database_path, auto_create_schema)]: the
    repository with its [_connection], and what the file holds
    afterwards. *)
Definition __init__ (database_path : string) (auto_create_schema : bool)
    (f : Faults) (disk : Migrations.Schema)
  : Outcome (SQLiteTaskRepository * option Migrations.Connection)
    * Migrations.Schema :=
  let self := mk_repository database_path in
  match (if database_path =? ":memory:"
         then match Migrations.get_connection database_path f disk with
              | Return c => Return (Some c)
              | Raise e => Raise e
              end
         else Return None) with
  | Raise e => (Raise e, disk)
  | Return _connection =>
      if auto_create_schema then
        match _ensure_schema_exists self _connection f disk with
        | (Return _, (_connection', disk')) =>
            (Return (self, _connection'), disk')
        | (Raise e, (_, disk')) => (Raise e, disk')
        end
      else (Return (self, _connection), disk)
  end.

(** * Properties *)

(** ** Strings *)

Module PyFacts.
Import Py.

Lemma rstrip_idempotent (s : string) : rstrip (rstrip s) = rstrip s.
Proof.
  induction s as [|c s IH]; simpl; [reflexivity|].
  destruct (rstrip s) as [|c' r] eqn:E.
  - destruct (isspace c) eqn:Ec; simpl; [reflexivity|]. now rewrite Ec.
  - change (rstrip (String c (String c' r))
            = String c (String c' r)).
    cbn [rstrip]. fold rstrip. 
    change (match rstrip (String c' r) with
            | EmptyString => if isspace c then EmptyString else String c EmptyString
            | r0 => String c r0 end = String c (String c' r)).
    now rewrite IH.
Qed.

Lemma lstrip_head (s : string) :
  match lstrip s with
  | EmptyString => True
  | String c _ => isspace c = false
  end.
Proof.
  induction s as [|c s IH]; simpl; [exact I|].
  destruct (isspace c) eqn:E; [exact IH| exact E].
Qed.

Lemma lstrip_rstrip_head (s : string) :
  match s with
  | EmptyString => True
  | String c _ => isspace c = false
  end -> lstrip (rstrip s) = rstrip s.
Proof.
  destruct s as [|c s]; simpl; [reflexivity|]. intros Hc.
  destruct (rstrip s); rewrite ?Hc; simpl; now rewrite Hc.
Qed.

Lemma strip_idempotent (s : string) : strip (strip s) = strip s.
Proof.
  unfold strip.
  rewrite (lstrip_rstrip_head (lstrip s) (lstrip_head s)).
  apply rstrip_idempotent.
Qed.

End PyFacts.

(** ** Timestamps: text and value *)

Module Stamp.

Lemma digit_val_digit (n : N) : (n < 10)%N -> digit_val (digit n) = Some n.
Proof.
  intros H. unfold digit_val, digit.
  rewrite N_ascii_embedding by lia.
  replace ((48 <=? 48 + n)%N) with true by (symmetry; apply N.leb_le; lia).
  replace ((48 + n <=? 57)%N) with true by (symmetry; apply N.leb_le; lia).
  cbn [andb]. f_equal. lia.
Qed.

Lemma num2_pad (n : N) :
  (n < 100)%N -> num2 (digit (n / 10)) (digit (n mod 10)) = Some n.
Proof.
  intros H. unfold num2.
  assert (n / 10 < 10)%N by (apply N.Div0.div_lt_upper_bound; lia).
  assert (n mod 10 < 10)%N by (apply N.mod_lt; lia).
  rewrite !digit_val_digit by assumption. cbn [obind]. f_equal.
  pose proof (N.div_mod n 10). lia.
Qed.

Lemma num4_pad (n : N) :
  (n < 10000)%N ->
  num4 (digit (n / 100 / 10)) (digit ((n / 100) mod 10))
       (digit (n mod 100 / 10)) (digit ((n mod 100) mod 10)) = Some n.
Proof.
  intros H. unfold num4.
  assert (n / 100 < 100)%N by (apply N.Div0.div_lt_upper_bound; lia).
  assert (n mod 100 < 100)%N by (apply N.mod_lt; lia).
  rewrite !num2_pad by assumption. cbn [obind]. f_equal.
  pose proof (N.div_mod n 100). lia.
Qed.

Lemma valid_bounds (d : datetime) :
  valid_datetime d = true ->
  (year d < 10000 /\ month d < 100 /\ day d < 100
   /\ hour d < 100 /\ minute d < 100 /\ second d < 100)%N.
Proof.
  unfold valid_datetime. rewrite !andb_true_iff.
  rewrite !N.leb_le, !N.ltb_lt. intros H.
  assert (days_in_month (year d) (month d) <= 31)%N.
  { unfold days_in_month.
    repeat match goal with |- context [if ?b then _ else _] => destruct b end; lia. }
  lia.
Qed.

(** Reading back what the engine wrote. *)
Lemma parse19_CURRENT_TIMESTAMP (sep : ascii -> bool) (d : datetime) :
  valid_datetime d = true -> sep " "%char = true ->
  parse19 sep (CURRENT_TIMESTAMP d) = Some d.
Proof.
  intros Hv Hs. destruct (valid_bounds d Hv) as (Hy & Hm & Hd & Hh & Hi & Hse).
  unfold CURRENT_TIMESTAMP, pad4, pad2. cbn [append parse19].
  rewrite num4_pad by assumption. cbn [obind].
  rewrite !num2_pad by assumption. cbn [obind].
  destruct d as [Y M D h mi se]. cbn [year month day hour minute second] in *.
  rewrite Hs, Hv. reflexivity.
Qed.

Lemma digit_val_letter (c : ascii) (n : N) :
  digit_val c = Some n ->
  Ascii.eqb c "T" = false /\ Ascii.eqb c "Z" = false.
Proof.
  destruct c as [[] [] [] [] [] [] [] []]; cbv; intros H;
    first [discriminate H | split; reflexivity].
Qed.

Lemma eqb_char (a b : ascii) : Ascii.eqb a b = true -> a = b.
Proof. apply Ascii.eqb_eq. Qed.

End Stamp.

Module StampRead.
Import Stamp.

(** A text that reads as a datetime with a blank between date and time takes
    the [strptime] branch of [_row_to_task], and reads as the same value. *)
Lemma read_timestamp_parsed (sep : ascii -> bool) (s : string) (d : datetime) :
  parse19 sep s = Some d ->
  String.get 10 s = Some " "%char ->
  read_timestamp s = Return d.
Proof.
  intros H G.
  do 19 (destruct s as [|? s]; [discriminate H|]).
  destruct s; [|discriminate H].
  cbn [String.get] in G. injection G as ->.
  unfold read_timestamp, strptime.
  cbn [parse19 Py.endswith Py.contains] in *. unfold num4, num2 in *.
  repeat match type of H with
         | context [digit_val ?c] =>
             let E := fresh "E" in
             destruct (digit_val c) eqn:E; cbn [obind] in H; [|discriminate H];
             destruct (digit_val_letter _ _ E) as [? ?]
         end.
  unfold guard in *.
  match type of H with
  | (if ?b then _ else _) = _ => destruct b eqn:B; [|discriminate H]
  end.
  rewrite !andb_true_iff in B.
  destruct B as [[[[[B1 B2] B3] B4] B5] B6].
  apply eqb_char in B1, B2, B4, B5. subst.
  repeat match goal with
         | E : Ascii.eqb _ _ = false |- _ => rewrite E
         end.
  cbn [orb Ascii.eqb Bool.eqb parse19].
  repeat match goal with
         | E : digit_val _ = Some _ |- _ => rewrite E
         end.
  cbn [obind]. rewrite B6. injection H as <-. reflexivity.
Qed.

Lemma get_10_CURRENT_TIMESTAMP (d : datetime) :
  String.get 10 (CURRENT_TIMESTAMP d) = Some " "%char.
Proof. reflexivity. Qed.

Lemma stamp_ok_read (s : string) :
  stamp_ok s = true -> read_timestamp s = Return (stamp s).
Proof.
  unfold stamp_ok, stamp. destruct (parse19 Py.isspace s) as [d|] eqn:E; [|discriminate].
  intros H. apply String.eqb_eq in H.
  apply (read_timestamp_parsed Py.isspace); [exact E|].
  rewrite H. apply get_10_CURRENT_TIMESTAMP.
Qed.


Lemma stamp_ok_CURRENT_TIMESTAMP (d : datetime) :
  valid_datetime d = true -> stamp_ok (CURRENT_TIMESTAMP d) = true.
Proof.
  intros H. unfold stamp_ok.
  rewrite parse19_CURRENT_TIMESTAMP by (exact H || reflexivity).
  apply String.eqb_refl.
Qed.

Lemma stamp_CURRENT_TIMESTAMP (d : datetime) :
  valid_datetime d = true -> stamp (CURRENT_TIMESTAMP d) = d.
Proof.
  intros H. unfold stamp.
  now rewrite parse19_CURRENT_TIMESTAMP by (exact H || reflexivity).
Qed.

End StampRead.

(** ** The order of timestamps as texts is their order as datetimes *)

Module StampOrder.
Import Stamp.












End StampOrder.

(** ** Sorting and indexes *)

Section SortedLists.
Context {A : Type}.




End SortedLists.

Module SqlFacts.
Import Sql.





(** *** The sorter *)

Lemma insert_desc_perm (key : Row -> option string) (r : Row) (l : list Row) :
  Permutation (insert_desc key r l) (r :: l).
Proof.
  induction l as [|x l IH]; cbn [insert_desc]; [reflexivity|].
  destruct (key_ltb (key r) (key x)); [|reflexivity].
  rewrite IH. apply perm_swap.
Qed.

Lemma sort_desc_perm (key : Row -> option string) (l : list Row) :
  Permutation (sort_desc key l) l.
Proof.
  induction l as [|x l IH]; cbn [sort_desc]; [reflexivity|].
  rewrite insert_desc_perm. now constructor.
Qed.



(** *** Indexes *)

Lemma index_insert_perm (key : Row -> option string) (r : Row) (l : list Row) :
  Permutation (index_insert key r l) (r :: l).
Proof.
  induction l as [|x l IH]; cbn [index_insert]; [reflexivity|].
  destruct (entry_ltb key r x); [reflexivity|].
  rewrite IH. apply perm_swap.
Qed.

Lemma index_on_perm (key : Row -> option string) (l : list Row) :
  Permutation (index_on key l) l.
Proof.
  induction l as [|x l IH]; cbn [index_on]; [reflexivity|].
  rewrite index_insert_perm. now constructor.
Qed.




Lemma rev_index_perm (key : Row -> option string) (l : list Row) :
  Permutation (rev (index_on key l)) l.
Proof.
  rewrite <- Permutation_rev. apply index_on_perm.
Qed.

End SqlFacts.

(** ** The table: primary key and constraints *)

Module TableFacts.
Import Sql.

Lemma ascending_Sorted (l : list Row) :
  ascending l = true <-> Sorted lt_id l.
Proof.
  induction l as [|r l IH]; cbn [ascending].
  - split; [constructor | reflexivity].
  - rewrite andb_true_iff, IH. split.
    + intros [H1 H2]. constructor; [exact H2|].
      destruct l; constructor. now apply Z.ltb_lt.
    + intros H. apply Sorted_inv in H as [H2 H1]. split; [|exact H2].
      destruct l; [reflexivity|]. apply HdRel_inv in H1. now apply Z.ltb_lt.
Qed.

Lemma ascending_strong (l : list Row) :
  ascending l = true <-> StronglySorted lt_id l.
Proof.
  rewrite ascending_Sorted. split.
  - apply Sorted_StronglySorted. intros a b c. unfold lt_id. lia.
  - apply StronglySorted_Sorted.
Qed.

Lemma strong_filter (w : Row -> bool) (l : list Row) :
  StronglySorted lt_id l -> StronglySorted lt_id (filter w l).
Proof.
  induction 1 as [|r l Hs IH Hf]; cbn [filter]; [constructor|].
  destruct (w r); [|exact IH]. constructor; [exact IH|].
  rewrite Forall_forall in *. intros x Hx. apply Hf.
  now apply filter_In in Hx.
Qed.

Lemma strong_map (g : Row -> Row) (l : list Row) :
  (forall r, r_id (g r) = r_id r) ->
  StronglySorted lt_id l -> StronglySorted lt_id (map g l).
Proof.
  intros Hg. induction 1 as [|r l Hs IH Hf]; cbn [map]; constructor; [exact IH|].
  rewrite Forall_forall in *. intros x Hx.
  apply in_map_iff in Hx as (y & <- & Hy).
  unfold lt_id. rewrite !Hg. now apply Hf.
Qed.

Lemma place_perm (r : Row) (l : list Row) : Permutation (place r l) (r :: l).
Proof.
  induction l as [|x l IH]; cbn [place]; [reflexivity|].
  destruct (r_id r <? r_id x)%Z; [reflexivity|].
  rewrite IH. apply perm_swap.
Qed.

Lemma existsb_has_id_false (n : Z) (l : list Row) :
  existsb (has_id n) l = false <-> forall x, In x l -> r_id x <> n.
Proof.
  induction l as [|x l IH]; cbn [existsb].
  - split; [intros _ y [] | reflexivity].
  - rewrite orb_false_iff, IH. unfold has_id. rewrite Z.eqb_neq. split.
    + intros [H1 H2] y [<-|Hy]; [exact H1 | now apply H2].
    + intros H. split; [apply H; now left | intros y Hy; apply H; now right].
Qed.

Lemma strong_place (r : Row) (l : list Row) :
  existsb (has_id (r_id r)) l = false ->
  StronglySorted lt_id l -> StronglySorted lt_id (place r l).
Proof.
  intros Hn Hs. induction Hs as [|x l Hs IH Hf]; cbn [place].
  - repeat constructor.
  - cbn [existsb] in Hn. apply orb_false_iff in Hn as [Hx Hn].
    unfold has_id in Hx. apply Z.eqb_neq in Hx.
    destruct (r_id r <? r_id x)%Z eqn:E.
    + apply Z.ltb_lt in E. constructor; [now constructor|].
      constructor; [exact E|].
      rewrite Forall_forall in *. intros y Hy. specialize (Hf y Hy).
      unfold lt_id in *. lia.
    + apply Z.ltb_ge in E. constructor; [now apply IH|].
      rewrite Forall_forall in *. intros y Hy.
      apply (Permutation_in _ (place_perm r l)) in Hy as [<-|Hy].
      * unfold lt_id. lia.
      * now apply Hf.
Qed.

Lemma max_rowid_bound (l : list Row) (r : Row) :
  In r l -> (r_id r <= max_rowid l)%Z.
Proof.
  induction l as [|x l IH]; cbn [max_rowid]; intros [].
  - subst. lia.
  - specialize (IH H). lia.
Qed.

Lemma next_rowid_fresh (db : Database) :
  existsb (has_id (next_rowid db)) (rows db) = false.
Proof.
  apply existsb_has_id_false. intros x Hx.
  apply max_rowid_bound in Hx. unfold next_rowid. lia.
Qed.

(** A new largest rowid goes to the end of the table. *)
Lemma place_last (r : Row) (l : list Row) :
  (forall x, In x l -> (r_id x < r_id r)%Z) -> place r l = (l ++ [r])%list.
Proof.
  induction l as [|x l IH]; intros H; cbn [place app]; [reflexivity|].
  assert (r_id x < r_id r)%Z as Hx by (apply H; now left).
  replace (r_id r <? r_id x)%Z with false by (symmetry; apply Z.ltb_ge; lia).
  f_equal. apply IH. intros y Hy. apply H. now right.
Qed.


Lemma count_by_key (w : Row -> bool) (i : Z) (l : list Row) :
  StronglySorted lt_id l ->
  (forall r, w r = true -> r_id r = i) ->
  List.length (filter w l) = if existsb w l then 1%nat else 0%nat.
Proof.
  intros Hs Hw. induction Hs as [|x l Hs IH Hf]; [reflexivity|].
  cbn [filter existsb]. destruct (w x) eqn:E; cbn [orb].
  - cbn [List.length]. f_equal.
    replace (filter w l) with (@nil Row); [reflexivity|].
    symmetry. apply (proj1 (List.length_zero_iff_nil _)).
    rewrite IH. replace (existsb w l) with false; [reflexivity|].
    symmetry. apply not_true_is_false. intros H.
    apply existsb_exists in H as (y & Hy & Wy).
    rewrite Forall_forall in Hf. specialize (Hf y Hy). unfold lt_id in Hf.
    apply Hw in E, Wy. lia.
  - exact IH.
Qed.

End TableFacts.

(** ** Constraints are kept by every statement *)

Module SchemaFacts.
Import Sql TableFacts.

Lemma check_row_invariant (r : Row) :
  check_constraints r = true -> row_invariant r.
Proof.
  unfold check_constraints, valid_completion, row_invariant.
  rewrite !andb_true_iff, orb_true_iff, !andb_true_iff.
  intros [_ [[Hs Hc]|[Hs Hc]]]; apply String.eqb_eq in Hs;
    destruct (r_completed_at r); try discriminate; rewrite Hs;
    split; intros; try reflexivity; discriminate.
Qed.

Lemma forallb_perm {A : Type} (p : A -> bool) (l m : list A) :
  Permutation l m -> forallb p l = true -> forallb p m = true.
Proof.
  intros P. rewrite !forallb_forall. intros H x Hx. apply H.
  now apply (Permutation_in _ (Permutation_sym P)).
Qed.

Lemma execute_schema_ok (st : Statement) (db db' : Database) (n : nat) :
  schema_ok db = true -> execute st db = inr (db', n) -> schema_ok db' = true.
Proof.
  unfold schema_ok. rewrite !andb_true_iff, !ascending_strong.
  intros [Ha Hc] He. destruct st as [i d s c k | w set | w]; cbn [execute] in He.
  - set (m := match i with Some m => m | None => next_rowid db end) in *.
    destruct (existsb (has_id m) (rows db)) eqn:Ex; [discriminate|].
    destruct (check_constraints (mk_Row m d s c k)) eqn:Ck; [|discriminate].
    injection He as <- <-. cbn [rows]. split.
    + now apply strong_place.
    + apply (forallb_perm _ _ _ (Permutation_sym (place_perm _ _))).
      cbn [forallb]. now rewrite Ck.
  - destruct (forallb check_constraints (map (assign set) (filter w (rows db))))
      eqn:Ck; [|discriminate].
    injection He as <- <-. cbn [rows]. split.
    + apply strong_map; [|exact Ha]. intros r. unfold apply_update, assign.
      destruct (w r); [|reflexivity]. now destruct (set r) as [[[? ?] ?] ?].
    + rewrite forallb_forall in *. intros x Hx.
      apply in_map_iff in Hx as (r & <- & Hr). unfold apply_update.
      destruct (w r) eqn:W; [|now apply Hc].
      apply Ck. apply in_map. apply filter_In. now split.
  - injection He as <- <-. cbn [rows]. split.
    + now apply strong_filter.
    + rewrite forallb_forall in *. intros x Hx.
      apply filter_In in Hx as [Hx _]. now apply Hc.
Qed.

Lemma schema_ok_rows (db : Database) (r : Row) :
  schema_ok db = true -> In r (rows db) -> check_constraints r = true.
Proof.
  unfold schema_ok. rewrite andb_true_iff, forallb_forall.
  intros [_ H]. apply H.
Qed.

End SchemaFacts.

(** ** What the conversions return *)

Module TaskFacts.

Lemma new_Task_value (i : option Z) (d : option string) (s : string)
    (c : datetime) (k : option datetime) (t : Task) :
  new_Task i d s c k = Return t ->
  exists d', d = Some d' /\ Py.truthy (Py.strip d') = true
             /\ t = mk_Task i (Py.strip d') s c k
             /\ (s = "pending" -> k = None)
             /\ (s = "completed" -> k <> None).
Proof.
  unfold new_Task. destruct d as [d|]; [|discriminate].
  unfold description_is_empty.
  destruct (Py.truthy d); cbn [negb orb]; [|discriminate].
  destruct (Py.truthy (Py.strip d)) eqn:Hd; cbn [negb]; [|discriminate].
  destruct (String.eqb_spec s "pending") as [->|Hp]; cbn [andb].
  - destruct k; [discriminate|]. cbn. intros [= <-].
    exists d. repeat split; try easy.
  - destruct (String.eqb_spec s "completed") as [->|Hc]; cbn [andb].
    + destruct k; [|discriminate]. intros [= <-].
      exists d. repeat split; try easy.
    + intros [= <-]. exists d. repeat split; try easy.
Qed.

Lemma new_Task_raises (i : option Z) (d : option string) (s : string)
    (c : datetime) (k : option datetime) (e : Exn) :
  new_Task i d s c k = Raise e -> is_storage_error e = false.
Proof.
  unfold new_Task. destruct d as [d|]; [|now intros [= <-]].
  repeat match goal with
         | |- context [if ?b then _ else _] => destruct b
         end; try discriminate; now intros [= <-].
Qed.

Lemma read_timestamp_raises (s : string) (e : Exn) :
  read_timestamp s = Raise e -> is_storage_error e = false.
Proof.
  unfold read_timestamp, fromisoformat, strptime.
  repeat match goal with
         | |- context [if ?b then _ else _] => destruct b
         | |- context [match parse19 ?f ?x with _ => _ end] => destruct (parse19 f x)
         end; try discriminate; now intros [= <-].
Qed.

Lemma _row_to_task_raises (r : Sql.Row) (e : Exn) :
  _row_to_task r = Raise e -> is_storage_error e = false.
Proof.
  unfold _row_to_task.
  destruct (read_timestamp (Sql.r_created_at r)) eqn:E1;
    [|intros [= <-]; now apply read_timestamp_raises in E1].
  destruct (Sql.r_completed_at r) as [c|].
  - destruct (Py.truthy c).
    + destruct (read_timestamp c) eqn:E2;
        [apply new_Task_raises|intros [= <-]; now apply read_timestamp_raises in E2].
    + apply new_Task_raises.
  - apply new_Task_raises.
Qed.

Lemma rows_to_tasks_raises (l : list Sql.Row) (e : Exn) :
  rows_to_tasks l = Raise e -> is_storage_error e = false.
Proof.
  induction l as [|r l IH]; cbn [rows_to_tasks]; [discriminate|].
  destruct (_row_to_task r) eqn:E1;
    [|intros [= <-]; now apply _row_to_task_raises in E1].
  destruct (rows_to_tasks l); [discriminate|].
  intros [= <-]. now apply IH.
Qed.

(** A Task built from a row whose status is a legal one has the invariant. *)
Lemma _row_to_task_invariant (r : Sql.Row) (t : Task) :
  Sql.check_status r = true -> _row_to_task r = Return t -> task_invariant t.
Proof.
  unfold _row_to_task, Sql.check_status. intros Hs.
  destruct (read_timestamp (Sql.r_created_at r)); [|discriminate].
  match goal with
  | |- match ?c with _ => _ end = _ -> _ => destruct c as [k|]; [|discriminate]
  end.
  intros H. apply new_Task_value in H as (d & _ & _ & -> & Hp & Hc).
  unfold task_invariant. cbn [status completed_at]. split; [exact Hp|].
  intros ->. apply orb_true_iff in Hs as [Hs|Hs]; apply String.eqb_eq in Hs;
    [exact Hs|]. now apply Hc in Hs.
Qed.

Lemma rows_to_tasks_Forall (P : Sql.Row -> Prop) (Q : Task -> Prop) :
  (forall r t, P r -> _row_to_task r = Return t -> Q t) ->
  forall l ts, Forall P l -> rows_to_tasks l = Return ts -> Forall Q ts.
Proof.
  intros H l. induction l as [|r l IH]; cbn [rows_to_tasks]; intros ts HP.
  - intros [= <-]. constructor.
  - inversion HP; subst.
    destruct (_row_to_task r) eqn:E1; [|discriminate].
    destruct (rows_to_tasks l) eqn:E2; [|discriminate].
    intros [= <-]. constructor; [now apply (H r)| now apply IH].
Qed.

End TaskFacts.

(** ** Running the methods on a store at rest *)

Module RepoFacts.
Import Sql TableFacts SchemaFacts TaskFacts.

Ltac run_m :=
  unfold bind, ret, raise, lift, try_finally, try_except, cursor_execute,
    cursor_select, commit, rollback, _get_connection, get_connection, release,
    close_connection, at_rest, no_faults;
  cbn [durable txn rowcount lastrowid fst snd].

Lemma map_unchanged {A : Type} (g : A -> A) (l : list A) :
  (forall x, In x l -> g x = x) -> map g l = l.
Proof.
  induction l as [|a l IH]; intros H; cbn [map]; [reflexivity|].
  rewrite H by now left. f_equal. apply IH. intros x Hx. apply H. now right.
Qed.

Lemma existsb_false_forall {A : Type} (p : A -> bool) (l : list A) :
  existsb p l = false -> forall x, In x l -> p x = false.
Proof.
  intros H x Hx. destruct (p x) eqn:E; [|reflexivity].
  assert (existsb p l = true) by (apply existsb_exists; eauto). congruence.
Qed.

Lemma execute_update_completed (i : Z) (now : datetime) (db : Database) :
  schema_ok db = true ->
  execute (update_completed i now) db
  = inr (completed_db i now db,
         if existsb (is_pending i) (rows db) then 1%nat else 0%nat).
Proof.
  intros Hok. unfold update_completed. cbn [execute].
  fold (is_pending i).
  match goal with
  | |- (if ?b then _ else _) = _ => replace b with true
  end.
  - f_equal. f_equal.
    apply (count_by_key _ i).
    + apply ascending_strong. unfold schema_ok in Hok.
      now apply andb_true_iff in Hok.
    + unfold is_pending, has_id. intros r H.
      apply andb_true_iff in H as [H _]. now apply Z.eqb_eq.
  - symmetry. apply forallb_forall. intros x Hx.
    apply in_map_iff in Hx as (r & <- & Hr). apply filter_In in Hr as [Hr _].
    pose proof (schema_ok_rows db r Hok Hr) as Hc.
    unfold check_constraints in Hc. rewrite !andb_true_iff in Hc.
    destruct Hc as [[Hd _] _]. unfold check_description in Hd.
    unfold check_constraints, check_description, assign.
    cbn [r_description]. rewrite Hd. reflexivity.
Qed.


Lemma completed_db_settled (i : Z) (now : datetime) (db : Database) :
  existsb (is_pending i) (rows (completed_db i now db)) = false.
Proof.
  unfold completed_db. cbn [rows]. apply not_true_is_false. intros H.
  apply existsb_exists in H as (x & Hx & Px).
  apply in_map_iff in Hx as (r & <- & Hr).
  destruct (is_pending i r) eqn:E; [|congruence].
  unfold is_pending, complete_row in Px. cbn [r_status] in Px.
  apply andb_true_iff in Px as [_ Px]. discriminate Px.
Qed.

Lemma mark_completed_at_rest (self : SQLiteTaskRepository) (now : datetime)
    (i : Z) (db : Database) :
  schema_ok db = true ->
  mark_completed self no_faults now i (at_rest db)
  = (Return (existsb (is_pending i) (rows db)),
     at_rest (completed_db i now db)).
Proof.
  intros Hok. unfold mark_completed. run_m.
  destruct (keeps_connection self); cbn [durable txn];
    rewrite (execute_update_completed i now db Hok);
    cbn [durable txn rowcount];
    destruct (existsb (is_pending i) (rows db)); reflexivity.
Qed.

Lemma completed_db_schema_ok (i : Z) (now : datetime) (db : Database) :
  schema_ok db = true -> schema_ok (completed_db i now db) = true.
Proof.
  intros Hok. eapply execute_schema_ok; [exact Hok|].
  apply execute_update_completed. exact Hok.
Qed.

End RepoFacts.

Module CreateFacts.
Import Sql TableFacts SchemaFacts TaskFacts RepoFacts.

Lemma find_last_fresh (i : Z) (l : list Row) (r : Row) :
  existsb (has_id i) l = false -> r_id r = i ->
  find (has_id i) (l ++ [r]) = Some r.
Proof.
  intros H Hr. induction l as [|x l IH]; cbn [app find].
  - unfold has_id. now rewrite Hr, Z.eqb_refl.
  - cbn [existsb] in H. apply orb_false_iff in H as [-> H]. now apply IH.
Qed.

(** The insert of [create_task]: refused by the constraint on the
    description, or else one new row at the end of the table. *)
Lemma execute_insert_task (d : string) (now : datetime) (db : Database) :
  execute (insert_task (Py.strip d) now) db
  = if Nat.eqb (Sql.length (Py.strip d)) 0
    then inl (IntegrityError "CHECK constraint failed")
    else inr (created_db d now db, 1%nat).
Proof.
  unfold insert_task. cbn [execute]. rewrite next_rowid_fresh.
  unfold check_constraints, check_description. cbn [r_description].
  destruct (Nat.eqb (Sql.length (Py.strip d)) 0); cbn [negb andb]; [reflexivity|].
  cbn. unfold created_db, created_row. f_equal. f_equal. f_equal.
  - apply place_last. cbn [r_id]. intros x Hx.
    apply max_rowid_bound in Hx. unfold next_rowid. lia.
  - unfold next_rowid. lia.
Qed.

Lemma select_created (d : string) (now : datetime) (db : Database) :
  select_by_id (next_rowid db) (created_db d now db)
  = Some (created_row d now db).
Proof.
  unfold select_by_id, created_db. cbn [rows].
  apply find_last_fresh; [apply next_rowid_fresh | reflexivity].
Qed.

Lemma description_ok_strip (d : string) :
  description_is_empty (Some d) = false ->
  description_is_empty (Some (Py.strip d)) = false.
Proof.
  unfold description_is_empty. rewrite PyFacts.strip_idempotent.
  rewrite !orb_false_iff. intros [_ H]. now split.
Qed.

(** The Task that [create_task] builds from the row it reads back. *)
Lemma new_Task_created (i : option Z) (d : string) (c : datetime) :
  description_is_empty (Some d) = false ->
  new_Task i (Some (Py.strip d)) "pending" c None
  = Return (mk_Task i (Py.strip d) "pending" c None).
Proof.
  intros H. unfold new_Task. rewrite (description_ok_strip d H).
  cbn. now rewrite PyFacts.strip_idempotent.
Qed.

(** Every run of [create_task] that returns has made all its calls, has
    inserted the row, and has read the creation time back from it. *)
Lemma create_task_returns (self : SQLiteTaskRepository) (f : Faults)
    (now : datetime) (d0 : option string) (db : Database)
    (t : Task) (s' : Storage) :
  create_task self f now d0 (at_rest db) = (Return t, s') ->
  exists d created,
    d0 = Some d
    /\ description_is_empty (Some d) = false
    /\ Nat.eqb (Sql.length (Py.strip d)) 0 = false
    /\ fromisoformat (CURRENT_TIMESTAMP now) = Return created
    /\ t = mk_Task (Some (next_rowid db)) (Py.strip d) "pending" created None
    /\ s' = at_rest (created_db d now db).
Proof.
  unfold create_task. destruct d0 as [d|]; [|discriminate].
  destruct (description_is_empty (Some d)) eqn:Hd; [discriminate|].
  run_m.
  destruct (keeps_connection self); cbn [durable txn].
  - destruct (f (Execute 0)); [discriminate|].
    rewrite execute_insert_task.
    destruct (Nat.eqb (Sql.length (Py.strip d)) 0) eqn:Hl; [discriminate|].
    cbn [durable txn lastrowid rowid_of insert_task].
    destruct (f (Execute 1)); [discriminate|]. cbn [txn durable].
    destruct (f Commit); [discriminate|]. cbn [txn durable].
    rewrite select_created. cbn [created_row r_created_at r_id r_description r_status].
    destruct (fromisoformat (CURRENT_TIMESTAMP now)) as [c|e] eqn:Hc.
    + rewrite (new_Task_created _ d c Hd). intros [= <- <-].
      exists d, c. repeat split; assumption || reflexivity.
    + destruct e; discriminate.
  - destruct (f Connect); [discriminate|]. cbn [durable txn].
    destruct (f (Execute 0)); [discriminate|].
    rewrite execute_insert_task.
    destruct (Nat.eqb (Sql.length (Py.strip d)) 0) eqn:Hl; [discriminate|].
    cbn [durable txn lastrowid rowid_of insert_task].
    destruct (f (Execute 1)); [discriminate|]. cbn [txn durable].
    destruct (f Commit); [discriminate|]. cbn [txn durable].
    rewrite select_created. cbn [created_row r_created_at r_id r_description r_status].
    destruct (fromisoformat (CURRENT_TIMESTAMP now)) as [c|e] eqn:Hc.
    + rewrite (new_Task_created _ d c Hd). intros [= <- <-].
      exists d, c. repeat split; assumption || reflexivity.
    + destruct e; discriminate.
Qed.

Lemma fromisoformat_CURRENT_TIMESTAMP (now : datetime) :
  valid_datetime now = true ->
  fromisoformat (CURRENT_TIMESTAMP now) = Return now.
Proof.
  intros H. unfold fromisoformat.
  now rewrite Stamp.parse19_CURRENT_TIMESTAMP.
Qed.

(** [create_task] when nothing fails. *)
Lemma create_task_at_rest (self : SQLiteTaskRepository) (now : datetime)
    (d : string) (db : Database) :
  valid_datetime now = true ->
  description_is_empty (Some d) = false ->
  Nat.eqb (Sql.length (Py.strip d)) 0 = false ->
  create_task self no_faults now (Some d) (at_rest db)
  = (Return (mk_Task (Some (next_rowid db)) (Py.strip d) "pending" now None),
     at_rest (created_db d now db)).
Proof.
  intros Hv Hd Hl. unfold create_task. rewrite Hd. run_m.
  destruct (keeps_connection self); cbn [durable txn];
    rewrite execute_insert_task, Hl;
    cbn [durable txn lastrowid rowid_of insert_task];
    rewrite select_created;
    cbn [created_row r_created_at r_id r_description r_status];
    rewrite (fromisoformat_CURRENT_TIMESTAMP now Hv);
    rewrite (new_Task_created _ d now Hd); reflexivity.
Qed.

End CreateFacts.

Module DeleteFacts.
Import Sql TableFacts SchemaFacts RepoFacts.

Lemma execute_delete_by_id (i : Z) (db : Database) :
  schema_ok db = true ->
  execute (delete_by_id i) db
  = inr (deleted_db i db,
         if existsb (has_id i) (rows db) then 1%nat else 0%nat).
Proof.
  intros Hok. unfold delete_by_id. cbn [execute]. f_equal. f_equal.
  apply (count_by_key _ i).
  - apply ascending_strong. unfold schema_ok in Hok.
    now apply andb_true_iff in Hok.
  - unfold has_id. intros r H. now apply Z.eqb_eq.
Qed.

Lemma filter_unchanged {A : Type} (p : A -> bool) (l : list A) :
  (forall x, In x l -> p x = true) -> filter p l = l.
Proof.
  induction l as [|a l IH]; intros H; cbn [filter]; [reflexivity|].
  rewrite H by now left. f_equal. apply IH. intros x Hx. apply H. now right.
Qed.


Lemma deleted_db_settled (i : Z) (db : Database) :
  existsb (has_id i) (rows (deleted_db i db)) = false.
Proof.
  unfold deleted_db. cbn [rows]. apply not_true_is_false. intros H.
  apply existsb_exists in H as (x & Hx & Px).
  apply filter_In in Hx as [_ Hx]. now rewrite Px in Hx.
Qed.

Lemma deleted_db_schema_ok (i : Z) (db : Database) :
  schema_ok db = true -> schema_ok (deleted_db i db) = true.
Proof.
  intros Hok. eapply execute_schema_ok; [exact Hok|].
  apply execute_delete_by_id. exact Hok.
Qed.

Lemma delete_task_at_rest (self : SQLiteTaskRepository) (i : Z) (db : Database) :
  schema_ok db = true ->
  delete_task self no_faults i (at_rest db)
  = (Return (existsb (has_id i) (rows db)), at_rest (deleted_db i db)).
Proof.
  intros Hok. unfold delete_task. run_m.
  destruct (keeps_connection self); cbn [durable txn];
    rewrite (execute_delete_by_id i db Hok);
    cbn [durable txn rowcount];
    destruct (existsb (has_id i) (rows db)); reflexivity.
Qed.

End DeleteFacts.

Module QueryFacts.
Import Sql TableFacts SchemaFacts TaskFacts RepoFacts.

Lemma query_no_faults (self : SQLiteTaskRepository)
    (select : Database -> list Row) (what : string) (db : Database) :
  query self no_faults select what (at_rest db)
  = (rows_to_tasks (select db), at_rest db).
Proof.
  unfold query. run_m.
  pose proof (rows_to_tasks_raises (select db)) as H.
  destruct (keeps_connection self); cbn [durable txn];
    destruct (rows_to_tasks (select db)) as [ts|e]; try reflexivity;
    specialize (H e eq_refl); now destruct e.
Qed.

(** A query that returns has read the rows of its [SELECT]; and no query
    changes the store, whatever fails. *)
Lemma query_returns (self : SQLiteTaskRepository) (f : Faults)
    (select : Database -> list Row) (what : string) (db : Database)
    (ts : list Task) (s' : Storage) :
  query self f select what (at_rest db) = (Return ts, s') ->
  rows_to_tasks (select db) = Return ts.
Proof.
  unfold query. run_m.
  destruct (keeps_connection self); cbn [durable txn].
  - destruct (f (Execute 0)); [discriminate|].
    destruct (rows_to_tasks (select db)) as [l|e]; cbn;
      [now intros [= <- _]|].
    destruct e; discriminate.
  - destruct (f Connect); [discriminate|]. cbn [durable txn].
    destruct (f (Execute 0)); [discriminate|].
    destruct (rows_to_tasks (select db)) as [l|e]; cbn;
      [now intros [= <- _]|].
    destruct e; discriminate.
Qed.

Lemma query_storage (self : SQLiteTaskRepository) (f : Faults)
    (select : Database -> list Row) (what : string) (db : Database) :
  snd (query self f select what (at_rest db)) = at_rest db.
Proof.
  unfold query. run_m.
  destruct (keeps_connection self); cbn [durable txn];
    repeat match goal with
           | |- context [f ?c] => destruct (f c); cbn [durable txn snd]
           end;
    try reflexivity;
    destruct (rows_to_tasks (select db)) as [l|[]]; reflexivity.
Qed.

Lemma get_task_by_id_no_faults (self : SQLiteTaskRepository) (i : Z)
    (db : Database) :
  get_task_by_id self no_faults i (at_rest db)
  = (match select_by_id i db with
     | Some row =>
         match _row_to_task row with
         | Return t => Return (Some t)
         | Raise e => Raise e
         end
     | None => Return None
     end, at_rest db).
Proof.
  unfold get_task_by_id. run_m.
  destruct (keeps_connection self); cbn [durable txn];
    destruct (select_by_id i db) as [row|]; try reflexivity;
    pose proof (_row_to_task_raises row) as H;
    destruct (_row_to_task row) as [t|e]; try reflexivity;
    specialize (H e eq_refl); now destruct e.
Qed.

Lemma get_task_by_id_returns (self : SQLiteTaskRepository) (f : Faults)
    (i : Z) (db : Database) (o : option Task) (s' : Storage) :
  get_task_by_id self f i (at_rest db) = (Return o, s') ->
  match o with
  | Some t => exists row, select_by_id i db = Some row
                          /\ _row_to_task row = Return t
  | None => select_by_id i db = None
  end.
Proof.
  unfold get_task_by_id. run_m.
  destruct (keeps_connection self); cbn [durable txn].
  - destruct (f (Execute 0)); [discriminate|].
    destruct (select_by_id i db) as [row|]; cbn; [|now intros [= <- _]].
    destruct (_row_to_task row) as [t|e] eqn:E; cbn.
    + intros [= <- _]. now exists row.
    + destruct e; discriminate.
  - destruct (f Connect); [discriminate|]. cbn [durable txn].
    destruct (f (Execute 0)); [discriminate|].
    destruct (select_by_id i db) as [row|]; cbn; [|now intros [= <- _]].
    destruct (_row_to_task row) as [t|e] eqn:E; cbn.
    + intros [= <- _]. now exists row.
    + destruct e; discriminate.
Qed.

Lemma get_task_by_id_storage (self : SQLiteTaskRepository) (f : Faults)
    (i : Z) (db : Database) :
  snd (get_task_by_id self f i (at_rest db)) = at_rest db.
Proof.
  unfold get_task_by_id. run_m.
  destruct (keeps_connection self); cbn [durable txn];
    repeat match goal with
           | |- context [f ?c] => destruct (f c); cbn [durable txn snd]
           end;
    try reflexivity;
    (destruct (select_by_id i db) as [row|]; [|reflexivity]);
    destruct (_row_to_task row) as [t|[]]; reflexivity.
Qed.

(** *** Rows written by the repository convert *)

Lemma stamp_ok_truthy (c : string) : stamp_ok c = true -> Py.truthy c = true.
Proof. now destruct c. Qed.

Lemma _row_to_task_ok (r : Row) :
  check_constraints r = true -> row_ok r = true ->
  _row_to_task r = Return (task_of_row r).
Proof.
  unfold check_constraints, row_ok, valid_completion.
  rewrite !andb_true_iff. intros [_ Hv] [[[Hd Hs] Hc] Hk].
  apply String.eqb_eq in Hs.
  unfold _row_to_task, task_of_row.
  rewrite (StampRead.stamp_ok_read _ Hc).
  assert (description_is_empty (Some (r_description r)) = false) as He.
  { unfold description_is_empty. now rewrite Hs, Hd. }
  unfold new_Task. rewrite He, Hs.
  destruct (r_completed_at r) as [c|]; cbn [option_map].
  - rewrite (stamp_ok_truthy c Hk), (StampRead.stamp_ok_read c Hk).
    destruct (String.eqb_spec (r_status r) "pending") as [Hp|Hp];
      [rewrite Hp in Hv; discriminate Hv|].
    cbn [andb orb] in Hv. rewrite andb_true_r in Hv. rewrite Hv. reflexivity.
  - rewrite andb_false_r, orb_false_r, andb_true_r in Hv.
    apply String.eqb_eq in Hv. rewrite Hv. reflexivity.
Qed.

Lemma rows_to_tasks_ok (l : list Row) :
  (forall r, In r l -> check_constraints r = true /\ row_ok r = true) ->
  rows_to_tasks l = Return (map task_of_row l).
Proof.
  induction l as [|r l IH]; intros H; cbn [rows_to_tasks map]; [reflexivity|].
  destruct (H r (or_introl eq_refl)) as [H1 H2].
  rewrite (_row_to_task_ok r H1 H2), IH; [reflexivity|].
  intros x Hx. apply H. now right.
Qed.

Lemma repo_ok_rows (db : Database) (r : Row) :
  repo_ok db = true -> In r (rows db) ->
  check_constraints r = true /\ row_ok r = true.
Proof.
  unfold repo_ok. rewrite andb_true_iff, forallb_forall. intros [H1 H2] Hr.
  split; [now apply (schema_ok_rows db) | now apply H2].
Qed.

Lemma select_all_perm (db : Database) : Permutation (select_all db) (rows db).
Proof. apply SqlFacts.rev_index_perm. Qed.

Lemma select_pending_perm (db : Database) :
  Permutation (select_pending db)
              (filter (fun r => r_status r =? "pending") (rows db)).
Proof. apply SqlFacts.sort_desc_perm. Qed.

Lemma select_completed_perm (db : Database) :
  Permutation (select_completed db)
              (filter (fun r => r_status r =? "completed") (rows db)).
Proof. apply SqlFacts.sort_desc_perm. Qed.

Lemma select_all_in (db : Database) (r : Row) :
  In r (select_all db) <-> In r (rows db).
Proof.
  split; apply Permutation_in;
    [apply select_all_perm | apply Permutation_sym, select_all_perm].
Qed.

Lemma select_pending_in (db : Database) (r : Row) :
  In r (select_pending db) <-> In r (rows db) /\ r_status r = "pending".
Proof.
  rewrite <- String.eqb_eq,
    <- (filter_In (fun r => r_status r =? "pending") r (rows db)).
  split; apply Permutation_in;
    [apply select_pending_perm | apply Permutation_sym, select_pending_perm].
Qed.

Lemma select_completed_in (db : Database) (r : Row) :
  In r (select_completed db) <-> In r (rows db) /\ r_status r = "completed".
Proof.
  rewrite <- String.eqb_eq,
    <- (filter_In (fun r => r_status r =? "completed") r (rows db)).
  split; apply Permutation_in;
    [apply select_completed_perm | apply Permutation_sym, select_completed_perm].
Qed.

End QueryFacts.

(** ** Failures of the engine *)

Module FaultFacts.
Import Sql TableFacts SchemaFacts TaskFacts RepoFacts CreateFacts DeleteFacts.

Ltac split_faults f :=
  repeat match goal with
         | |- context [f ?c] =>
             let E := fresh "E" in destruct (f c) eqn:E; cbn [durable txn fst snd]
         end.

(** Where [create_task] leaves the store: as it was, or with the new row. *)
Lemma create_task_storage (self : SQLiteTaskRepository) (f : Faults)
    (now : datetime) (d0 : option string) (db : Database) :
  snd (create_task self f now d0 (at_rest db)) = at_rest db
  \/ exists d, d0 = Some d
               /\ description_is_empty (Some d) = false
               /\ Nat.eqb (Sql.length (Py.strip d)) 0 = false
               /\ snd (create_task self f now d0 (at_rest db))
                  = at_rest (created_db d now db).
Proof.
  unfold create_task. destruct d0 as [d|]; [|now left].
  destruct (description_is_empty (Some d)) eqn:Hd; [now left|].
  run_m.
  destruct (keeps_connection self); cbn [durable txn];
    split_faults f; try (now left);
    rewrite execute_insert_task;
    (destruct (Nat.eqb (Sql.length (Py.strip d)) 0) eqn:Hl; [now left|]);
    cbn [durable txn lastrowid rowid_of insert_task];
    split_faults f; try (now left);
    rewrite select_created;
    cbn [created_row r_created_at r_id r_description r_status];
    right; exists d; repeat split; try assumption;
    (destruct (fromisoformat (CURRENT_TIMESTAMP now)) as [c|e];
     [rewrite (new_Task_created _ d c Hd); reflexivity
     | destruct e; reflexivity]).
Qed.

(** A failing call or a refused insert: a storage error, and no change. *)
Lemma create_task_fails (self : SQLiteTaskRepository) (f : Faults)
    (now : datetime) (d : string) (db : Database) :
  description_is_empty (Some d) = false ->
  some_fail f (calls_of_create self) = true
  \/ Nat.eqb (Sql.length (Py.strip d)) 0 = true ->
  exists e, create_task self f now (Some d) (at_rest db) = (Raise e, at_rest db)
            /\ is_storage_error e = true.
Proof.
  intros Hd H. unfold create_task. rewrite Hd.
  unfold some_fail, calls_of_create, connect_call, fails in H.
  run_m.
  destruct (keeps_connection self); cbn [durable txn existsb app] in *;
    split_faults f; try (eexists; split; reflexivity);
    rewrite execute_insert_task;
    (destruct (Nat.eqb (Sql.length (Py.strip d)) 0) eqn:Hl;
       [eexists; split; reflexivity|]);
    cbn [durable txn lastrowid rowid_of insert_task];
    split_faults f; try (eexists; split; reflexivity);
    exfalso;
    repeat match goal with
           | E : f _ = None |- _ => rewrite E in H
           end;
    cbn in H; destruct H; discriminate.
Qed.

Lemma mark_completed_storage (self : SQLiteTaskRepository) (f : Faults)
    (now : datetime) (i : Z) (db : Database) :
  schema_ok db = true ->
  snd (mark_completed self f now i (at_rest db)) = at_rest db
  \/ snd (mark_completed self f now i (at_rest db))
     = at_rest (completed_db i now db).
Proof.
  intros Hok. unfold mark_completed. run_m.
  destruct (keeps_connection self); cbn [durable txn];
    split_faults f; try (now left);
    rewrite (execute_update_completed i now db Hok);
    cbn [durable txn rowcount];
    split_faults f; (now left) || (now right).
Qed.

Lemma mark_completed_fails (self : SQLiteTaskRepository) (f : Faults)
    (now : datetime) (i : Z) (db : Database) :
  some_fail f (calls_of_write self) = true ->
  exists e, mark_completed self f now i (at_rest db) = (Raise e, at_rest db)
            /\ is_storage_error e = true.
Proof.
  intros H. unfold mark_completed.
  unfold some_fail, calls_of_write, connect_call, fails in H.
  run_m.
  destruct (keeps_connection self); cbn [durable txn existsb app] in *;
    split_faults f; try (eexists; split; reflexivity);
    (destruct (execute (update_completed i now) db) as [[m]|[db' n]];
       [eexists; split; reflexivity|]);
    cbn [durable txn rowcount];
    split_faults f; try (eexists; split; reflexivity);
    exfalso;
    repeat match goal with
           | E : f _ = None |- _ => rewrite E in H
           end;
    cbn in H; discriminate.
Qed.

Lemma delete_task_storage (self : SQLiteTaskRepository) (f : Faults)
    (i : Z) (db : Database) :
  snd (delete_task self f i (at_rest db)) = at_rest db
  \/ snd (delete_task self f i (at_rest db)) = at_rest (deleted_db i db).
Proof.
  unfold delete_task. run_m.
  destruct (keeps_connection self); cbn [durable txn];
    split_faults f; try (now left);
    cbn [execute delete_by_id durable txn rowcount];
    split_faults f; (now left) || (now right).
Qed.

Lemma delete_task_fails (self : SQLiteTaskRepository) (f : Faults)
    (i : Z) (db : Database) :
  some_fail f (calls_of_write self) = true ->
  exists e, delete_task self f i (at_rest db) = (Raise e, at_rest db)
            /\ is_storage_error e = true.
Proof.
  intros H. unfold delete_task.
  unfold some_fail, calls_of_write, connect_call, fails in H.
  run_m.
  destruct (keeps_connection self); cbn [durable txn existsb app] in *;
    split_faults f; try (eexists; split; reflexivity);
    cbn [execute delete_by_id durable txn rowcount];
    split_faults f; try (eexists; split; reflexivity);
    exfalso;
    repeat match goal with
           | E : f _ = None |- _ => rewrite E in H
           end;
    cbn in H; discriminate.
Qed.

Lemma query_fails (self : SQLiteTaskRepository) (f : Faults)
    (select : Database -> list Row) (what : string) (db : Database) :
  some_fail f (calls_of_read self) = true ->
  exists e, query self f select what (at_rest db) = (Raise e, at_rest db)
            /\ is_storage_error e = true.
Proof.
  intros H. unfold query.
  unfold some_fail, calls_of_read, connect_call, fails in H.
  run_m.
  destruct (keeps_connection self); cbn [durable txn existsb app] in *;
    split_faults f; try (eexists; split; reflexivity);
    exfalso;
    repeat match goal with
           | E : f _ = None |- _ => rewrite E in H
           end;
    cbn in H; discriminate.
Qed.

Lemma get_task_by_id_fails (self : SQLiteTaskRepository) (f : Faults)
    (i : Z) (db : Database) :
  some_fail f (calls_of_read self) = true ->
  exists e, get_task_by_id self f i (at_rest db) = (Raise e, at_rest db)
            /\ is_storage_error e = true.
Proof.
  intros H. unfold get_task_by_id.
  unfold some_fail, calls_of_read, connect_call, fails in H.
  run_m.
  destruct (keeps_connection self); cbn [durable txn existsb app] in *;
    split_faults f; try (eexists; split; reflexivity);
    exfalso;
    repeat match goal with
           | E : f _ = None |- _ => rewrite E in H
           end;
    cbn in H; discriminate.
Qed.

End FaultFacts.

(** ** The stores that the repository reaches *)

Module ReachFacts.
Import Sql TableFacts SchemaFacts TaskFacts RepoFacts CreateFacts DeleteFacts
  FaultFacts.

Lemma created_db_repo_ok (d : string) (now : datetime) (db : Database) :
  valid_datetime now = true ->
  description_is_empty (Some d) = false ->
  Nat.eqb (Sql.length (Py.strip d)) 0 = false ->
  repo_ok db = true -> repo_ok (created_db d now db) = true.
Proof.
  intros Hv Hd Hl. unfold repo_ok. rewrite !andb_true_iff. intros [Hs Hr].
  split.
  - eapply execute_schema_ok; [exact Hs|].
    rewrite execute_insert_task, Hl. reflexivity.
  - unfold created_db. cbn [rows]. rewrite forallb_app, Hr. cbn [forallb andb].
    rewrite andb_true_r. unfold row_ok, created_row.
    cbn [r_description r_created_at r_completed_at].
    rewrite PyFacts.strip_idempotent, String.eqb_refl.
    rewrite (StampRead.stamp_ok_CURRENT_TIMESTAMP now Hv).
    unfold description_is_empty in Hd. apply orb_false_iff in Hd as [_ Hd].
    apply negb_false_iff in Hd. now rewrite Hd.
Qed.

Lemma completed_db_repo_ok (i : Z) (now : datetime) (db : Database) :
  valid_datetime now = true ->
  repo_ok db = true -> repo_ok (completed_db i now db) = true.
Proof.
  intros Hv. unfold repo_ok. rewrite !andb_true_iff. intros [Hs Hr].
  split; [now apply completed_db_schema_ok|].
  unfold completed_db. cbn [rows]. rewrite forallb_forall in *.
  intros x Hx. apply in_map_iff in Hx as (r & <- & Hin).
  specialize (Hr r Hin). destruct (is_pending i r); [|exact Hr].
  unfold row_ok, complete_row in *.
  cbn [r_description r_created_at r_completed_at].
  rewrite !andb_true_iff in *. destruct Hr as [[[H1 H2] H3] _].
  repeat split; try assumption.
  now apply StampRead.stamp_ok_CURRENT_TIMESTAMP.
Qed.

Lemma deleted_db_repo_ok (i : Z) (db : Database) :
  repo_ok db = true -> repo_ok (deleted_db i db) = true.
Proof.
  unfold repo_ok. rewrite !andb_true_iff. intros [Hs Hr].
  split; [now apply deleted_db_schema_ok|].
  unfold deleted_db. cbn [rows]. rewrite forallb_forall in *.
  intros x Hx. apply filter_In in Hx as [Hx _]. now apply Hr.
Qed.

(** Between two calls the store is at rest and well formed. *)
Lemma reachable_repo_ok (self : SQLiteTaskRepository) (s : Storage) :
  reachable self s -> exists db, s = at_rest db /\ repo_ok db = true.
Proof.
  induction 1 as [|s f now d _ (db & -> & Hok) Hv
                  |s f now i _ (db & -> & Hok) Hv
                  |s f i _ (db & -> & Hok)].
  - exists Sql.empty. now split.
  - destruct (create_task_storage self f now d db) as [->|(d' & -> & Hd & Hl & ->)].
    + now exists db.
    + exists (created_db d' now db). split; [reflexivity|].
      now apply created_db_repo_ok.
  - assert (schema_ok db = true) as Hs
        by (unfold repo_ok in Hok; now apply andb_true_iff in Hok).
    destruct (mark_completed_storage self f now i db Hs) as [->| ->].
    + now exists db.
    + exists (completed_db i now db). split; [reflexivity|].
      now apply completed_db_repo_ok.
  - destruct (delete_task_storage self f i db) as [->| ->].
    + now exists db.
    + exists (deleted_db i db). split; [reflexivity|].
      now apply deleted_db_repo_ok.
Qed.

Lemma repo_ok_schema_ok (db : Database) :
  repo_ok db = true -> schema_ok db = true.
Proof. unfold repo_ok. rewrite andb_true_iff. now intros []. Qed.

End ReachFacts.

(** * The claims *)

Import Sql TableFacts SchemaFacts TaskFacts RepoFacts CreateFacts DeleteFacts
  QueryFacts FaultFacts ReachFacts.

Lemma schema_ok_check_status (db : Database) (l : list Row) :
  schema_ok db = true -> (forall r, In r l -> In r (rows db)) ->
  Forall (fun r => check_status r = true) l.
Proof.
  intros Hok H. apply Forall_forall. intros r Hr.
  pose proof (schema_ok_rows db r Hok (H r Hr)) as Hc.
  unfold check_constraints in Hc. rewrite !andb_true_iff in Hc. tauto.
Qed.

Lemma query_invariant (self : SQLiteTaskRepository) (f : Faults)
    (select : Database -> list Row) (what : string) (db : Database)
    (ts : list Task) (s' : Storage) :
  schema_ok db = true ->
  (forall r, In r (select db) -> In r (rows db)) ->
  query self f select what (at_rest db) = (Return ts, s') ->
  Forall task_invariant ts.
Proof.
  intros Hok Hsel H. apply query_returns in H.
  eapply rows_to_tasks_Forall; [|apply (schema_ok_check_status db _ Hok Hsel)|exact H].
  intros r t. apply _row_to_task_invariant.
Qed.

(** C1. In a table that satisfies the declarations of [create_schema],
    every stored row has [status = 'pending'] exactly when [completed_at] is
    [NULL]; every statement that the engine accepts, from any client, leaves
    a table that satisfies them again; and every Task returned by
    [get_all_tasks], [get_pending_tasks], [get_completed_tasks] or
    [get_task_by_id], whatever calls fail, has [status = 'pending'] exactly
    when [completed_at] is [None]. *)
Theorem C1_invariant_enforced_by_storage (self : SQLiteTaskRepository)
    (f : Faults) (db : Database) :
  schema_ok db = true ->
  (forall r, In r (rows db) -> row_invariant r)
  /\ (forall st db' n, execute st db = inr (db', n) ->
        schema_ok db' = true /\ forall r, In r (rows db') -> row_invariant r)
  /\ (forall ts s', get_all_tasks self f (at_rest db) = (Return ts, s') ->
        Forall task_invariant ts)
  /\ (forall ts s', get_pending_tasks self f (at_rest db) = (Return ts, s') ->
        Forall task_invariant ts)
  /\ (forall ts s', get_completed_tasks self f (at_rest db) = (Return ts, s') ->
        Forall task_invariant ts)
  /\ (forall i t s', get_task_by_id self f i (at_rest db) = (Return (Some t), s') ->
        task_invariant t).
Proof.
  intros Hok.
  assert (forall d, schema_ok d = true -> forall r, In r (rows d) -> row_invariant r)
    as Hrows.
  { intros d Hd r Hr. apply check_row_invariant. now apply (schema_ok_rows d). }
  split; [|split; [|split; [|split; [|split]]]].
  - now apply Hrows.
  - intros st db' n He. pose proof (execute_schema_ok st db db' n Hok He).
    split; [assumption | now apply Hrows].
  - intros ts s'. apply query_invariant; [exact Hok|].
    intros r. apply select_all_in.
  - intros ts s'. apply query_invariant; [exact Hok|].
    intros r Hr. now apply select_pending_in in Hr.
  - intros ts s'. apply query_invariant; [exact Hok|].
    intros r Hr. now apply select_completed_in in Hr.
  - intros i t s' H. apply get_task_by_id_returns in H as (row & Hrow & Ht).
    apply (_row_to_task_invariant row); [|exact Ht].
    apply find_some in Hrow as [Hin _].
    pose proof (schema_ok_rows db row Hok Hin) as Hc.
    unfold check_constraints in Hc. rewrite !andb_true_iff in Hc. tauto.
Qed.

Lemma C1_witness :
  schema_ok sample_db = true
  /\ (forall r, In r (rows sample_db) -> row_invariant r)
  /\ (forall st db' n, execute st sample_db = inr (db', n) ->
        schema_ok db' = true /\ forall r, In r (rows db') -> row_invariant r)
  /\ (forall ts s', get_all_tasks memory_repo no_faults (at_rest sample_db)
                    = (Return ts, s') -> Forall task_invariant ts)
  /\ (forall ts s', get_pending_tasks memory_repo no_faults (at_rest sample_db)
                    = (Return ts, s') -> Forall task_invariant ts)
  /\ (forall ts s', get_completed_tasks memory_repo no_faults (at_rest sample_db)
                    = (Return ts, s') -> Forall task_invariant ts)
  /\ (forall i t s', get_task_by_id memory_repo no_faults i (at_rest sample_db)
                     = (Return (Some t), s') -> task_invariant t).
Proof.
  split; [reflexivity|].
  apply (C1_invariant_enforced_by_storage memory_repo no_faults sample_db).
  reflexivity.
Defined.

Lemma find_map_id (g : Row -> Row) (i : Z) (l : list Row) :
  (forall r, r_id (g r) = r_id r) ->
  find (has_id i) (map g l) = option_map g (find (has_id i) l).
Proof.
  intros Hg. induction l as [|x l IH]; cbn [map find]; [reflexivity|].
  unfold has_id at 1 3. rewrite Hg.
  destruct (r_id x =? i)%Z; [reflexivity | exact IH].
Qed.

Lemma select_completed_row (i : Z) (now : datetime) (db : Database) (r : Row) :
  select_by_id i db = Some r -> r_status r = "pending" ->
  select_by_id i (completed_db i now db) = Some (complete_row now r).
Proof.
  unfold select_by_id, completed_db. cbn [rows]. intros Hf Hs.
  rewrite find_map_id.
  - rewrite Hf. cbn [option_map]. apply find_some in Hf as [_ Hi].
    unfold is_pending. now rewrite Hi, Hs.
  - intros x. now destruct (is_pending i x).
Qed.




(** C3, as stated, fails: a description that starts with the NUL character
    is not empty after trimming, but SQL [length] counts the characters
    before the first NUL, so the [CHECK] on the description refuses the
    insert, no row is written and [create_task] raises [RuntimeError]. *)
Lemma C3_counterexample :
  description_is_empty (Some nul_description) = false
  /\ Py.strip nul_description <> ""
  /\ create_task memory_repo no_faults t0 (Some nul_description)
       (at_rest Sql.empty)
     = (Raise (RuntimeError "Failed to create task: CHECK constraint failed"),
        at_rest Sql.empty).
Proof. repeat split. discriminate. Qed.

(** C3, amended. For every description that is not empty after trimming and
    whose trimmed text has a positive SQL length, and for a valid reading of
    the engine's clock, [create_task] appends exactly one row, with the next
    rowid, the trimmed description, status pending, the clock's timestamp
    and no completion time; it returns the Task with that rowid and with the
    creation time read back from the stored row; the Task is pending and has
    no completion time. *)
Theorem C3_create_task_inserts_pending (self : SQLiteTaskRepository)
    (now : datetime) (d : string) (db : Database) :
  valid_datetime now = true ->
  description_is_empty (Some d) = false ->
  Nat.eqb (Sql.length (Py.strip d)) 0 = false ->
  exists t row,
    create_task self no_faults now (Some d) (at_rest db)
    = (Return t, at_rest (mk_Database (rows db ++ [row])%list (r_id row)))
    /\ row = mk_Row (next_rowid db) (Py.strip d) "pending"
                    (CURRENT_TIMESTAMP now) None
    /\ (forall r, In r (rows db) -> r_id r <> r_id row)
    /\ id t = Some (r_id row)
    /\ description t = Py.strip d
    /\ fromisoformat (r_created_at row) = Return (created_at t)
    /\ status t = "pending"
    /\ completed_at t = None.
Proof.
  intros Hv Hd Hl.
  exists (mk_Task (Some (next_rowid db)) (Py.strip d) "pending" now None).
  exists (created_row d now db).
  split; [now apply create_task_at_rest|].
  split; [reflexivity|]. split.
  - apply existsb_has_id_false. apply next_rowid_fresh.
  - cbn [id description status created_at completed_at created_row r_created_at
         r_id].
    rewrite (fromisoformat_CURRENT_TIMESTAMP now Hv). repeat split.
Qed.

Lemma C3_witness :
  valid_datetime t0 = true
  /\ description_is_empty (Some "  Buy groceries ") = false
  /\ Nat.eqb (Sql.length (Py.strip "  Buy groceries ")) 0 = false
  /\ exists t row,
    create_task memory_repo no_faults t0 (Some "  Buy groceries ")
      (at_rest sample_db)
    = (Return t, at_rest (mk_Database (rows sample_db ++ [row])%list (r_id row)))
    /\ row = mk_Row (next_rowid sample_db) (Py.strip "  Buy groceries ")
                    "pending" (CURRENT_TIMESTAMP t0) None
    /\ (forall r, In r (rows sample_db) -> r_id r <> r_id row)
    /\ id t = Some (r_id row)
    /\ description t = Py.strip "  Buy groceries "
    /\ fromisoformat (r_created_at row) = Return (created_at t)
    /\ status t = "pending"
    /\ completed_at t = None.
Proof.
  split; [reflexivity|]. split; [reflexivity|]. split; [reflexivity|].
  apply (C3_create_task_inserts_pending memory_repo t0 "  Buy groceries "
           sample_db); reflexivity.
Defined.

Lemma all_space_strip (d : string) : all_space d = true -> Py.strip d = "".
Proof.
  unfold Py.strip. induction d as [|c d IH]; cbn [all_space Py.lstrip];
    [reflexivity|].
  intros H. apply andb_true_iff in H as [-> H]. now apply IH.
Qed.

Lemma blank_is_empty (d0 : option string) :
  blank d0 = true -> description_is_empty d0 = true.
Proof.
  destruct d0 as [d|]; [|reflexivity]. cbn [blank description_is_empty].
  intros H. rewrite (all_space_strip d H). apply orb_true_r.
Qed.

Lemma create_task_blank (self : SQLiteTaskRepository) (f : Faults)
    (now : datetime) (d0 : option string) (s : Storage) :
  blank d0 = true ->
  create_task self f now d0 s
  = (Raise (ValueError "Description cannot be empty"), s).
Proof.
  intros H. apply blank_is_empty in H.
  unfold create_task. destruct d0 as [d|]; [|reflexivity]. now rewrite H.
Qed.

(** C4. For every description that is [None], empty or made of white space
    only, [create_task] raises [ValueError] without any call on the engine:
    whatever the engine would do, the store is left as it was, and
    [get_all_tasks] gives afterwards what it gave before. *)
Theorem C4_create_task_rejects_blank (self : SQLiteTaskRepository)
    (f : Faults) (now : datetime) (d0 : option string) (s : Storage) :
  blank d0 = true ->
  create_task self f now d0 s
  = (Raise (ValueError "Description cannot be empty"), s)
  /\ forall f',
       get_all_tasks self f' (snd (create_task self f now d0 s))
       = get_all_tasks self f' s.
Proof.
  intros H. pose proof (create_task_blank self f now d0 s H) as E.
  split; [exact E|]. intros f'. now rewrite E.
Qed.

Lemma C4_witness :
  blank (Some "   ") = true
  /\ create_task file_repo no_faults t0 (Some "   ") (at_rest sample_db)
     = (Raise (ValueError "Description cannot be empty"), at_rest sample_db).
Proof.
  split; [reflexivity|].
  apply (C4_create_task_rejects_blank file_repo no_faults t0 (Some "   ")
           (at_rest sample_db)).
  reflexivity.
Defined.


Lemma query_repo_ok (self : SQLiteTaskRepository)
    (select : Database -> list Row) (what : string) (db : Database) :
  repo_ok db = true ->
  (forall r, In r (select db) -> In r (rows db)) ->
  query self no_faults select what (at_rest db)
  = (Return (map task_of_row (select db)), at_rest db).
Proof.
  intros Hok Hsel. rewrite query_no_faults. f_equal.
  apply rows_to_tasks_ok. intros r Hr. apply (repo_ok_rows db r Hok).
  now apply Hsel.
Qed.

Lemma select_all_sub (db : Database) (r : Row) :
  In r (select_all db) -> In r (rows db).
Proof. apply select_all_in. Qed.

Lemma select_pending_sub (db : Database) (r : Row) :
  In r (select_pending db) -> In r (rows db).
Proof. intros H. now apply select_pending_in in H. Qed.

Lemma select_completed_sub (db : Database) (r : Row) :
  In r (select_completed db) -> In r (rows db).
Proof. intros H. now apply select_completed_in in H. Qed.




(** ** The order of datetimes is transitive *)

Module DatetimeOrder.






End DatetimeOrder.

(** ** Order of the results *)






Lemma task_of_created_row (d : string) (now : datetime) (db : Database) :
  valid_datetime now = true ->
  task_of_row (created_row d now db)
  = mk_Task (Some (next_rowid db)) (Py.strip d) "pending" now None.
Proof.
  intros Hv. unfold task_of_row, created_row.
  cbn [r_id r_description r_status r_created_at r_completed_at option_map].
  now rewrite (StampRead.stamp_CURRENT_TIMESTAMP now Hv).
Qed.




(** ** Pending and completed Tasks partition all Tasks *)

Lemma partition_repo_ok (self : SQLiteTaskRepository) (db : Database) :
  repo_ok db = true ->
  exists all pending completed,
    get_all_tasks self no_faults (at_rest db) = (Return all, at_rest db)
    /\ get_pending_tasks self no_faults (at_rest db)
       = (Return pending, at_rest db)
    /\ get_completed_tasks self no_faults (at_rest db)
       = (Return completed, at_rest db)
    /\ (forall t, In t all <-> In t pending \/ In t completed)
    /\ (forall t, ~ (In t pending /\ In t completed)).
Proof.
  intros Hrepo.
  exists (map task_of_row (select_all db)),
         (map task_of_row (select_pending db)),
         (map task_of_row (select_completed db)).
  split; [apply query_repo_ok; [exact Hrepo|apply select_all_sub]|].
  split; [apply query_repo_ok; [exact Hrepo|apply select_pending_sub]|].
  split; [apply query_repo_ok; [exact Hrepo|apply select_completed_sub]|].
  split.
  - intros t. rewrite !in_map_iff. split.
    + intros (r & <- & Hr). apply select_all_in in Hr.
      destruct (repo_ok_rows db r Hrepo Hr) as [Hc _].
      unfold check_constraints, check_status in Hc.
      rewrite !andb_true_iff, orb_true_iff, !String.eqb_eq in Hc.
      destruct Hc as [[_ [Hs|Hs]] _]; [left|right]; exists r;
        (split; [reflexivity|]).
      * now apply select_pending_in.
      * now apply select_completed_in.
    + intros [(r & <- & Hr)|(r & <- & Hr)]; exists r; (split; [reflexivity|]);
        apply select_all_in.
      * now apply select_pending_in in Hr.
      * now apply select_completed_in in Hr.
  - intros t [Hp Hc]. apply in_map_iff in Hp as (r1 & <- & H1).
    apply in_map_iff in Hc as (r2 & E & H2).
    apply select_pending_in in H1 as [_ H1].
    apply select_completed_in in H2 as [_ H2].
    apply (f_equal status) in E. cbn [task_of_row status] in E.
    rewrite H1, H2 in E. discriminate E.
Qed.

(** C7. In every store that the repository reaches from the empty table,
    whatever calls failed on the way, the three listing queries return, and a
    Task is returned by [get_all_tasks] exactly when it is returned by
    [get_pending_tasks] or by [get_completed_tasks], and none is returned by
    both of these. *)
Theorem C7_pending_completed_partition (self : SQLiteTaskRepository)
    (s : Storage) :
  reachable self s ->
  exists all pending completed,
    get_all_tasks self no_faults s = (Return all, s)
    /\ get_pending_tasks self no_faults s = (Return pending, s)
    /\ get_completed_tasks self no_faults s = (Return completed, s)
    /\ (forall t, In t all <-> In t pending \/ In t completed)
    /\ (forall t, ~ (In t pending /\ In t completed)).
Proof.
  intros H. apply reachable_repo_ok in H as (db & -> & Hrepo).
  now apply partition_repo_ok.
Qed.

Lemma C7_witness :
  let s := snd (mark_completed memory_repo no_faults t1 1
             (snd (create_task memory_repo no_faults t0 (Some "A")
                     (at_rest Sql.empty)))) in
  reachable memory_repo s
  /\ exists all pending completed,
      get_all_tasks memory_repo no_faults s = (Return all, s)
      /\ get_pending_tasks memory_repo no_faults s = (Return pending, s)
      /\ get_completed_tasks memory_repo no_faults s = (Return completed, s)
      /\ (forall t, In t all <-> In t pending \/ In t completed)
      /\ (forall t, ~ (In t pending /\ In t completed)).
Proof.
  intros s.
  assert (reachable memory_repo s) as H.
  { apply reach_complete; [|reflexivity].
    apply reach_create; [|reflexivity]. apply reach_empty. }
  split; [exact H|].
  apply (C7_pending_completed_partition memory_repo s H).
Defined.

(** ** Failures of the engine are storage errors *)

Lemma storage_error_is_no_validation_error (e : Exn) :
  is_storage_error e = true -> forall msg, e <> ValueError msg.
Proof. intros H msg ->. discriminate H. Qed.

(** C8. Whenever a call that a method makes on the engine fails (the
    connection cannot be opened, a statement or the commit fails) or the
    engine refuses a write for a constraint, the method raises
    [RuntimeError], or [sqlite3.Error] when it is the opening of the
    connection that fails: an exception, so not the [False] or [None] of a
    task that is not there, and not the [ValueError] of a rejected
    description. For [create_task], [mark_completed] and [delete_task] the
    store, both the file and the view of the open connection, is then what
    it was before the call; the queries never change it. *)
Theorem C8_storage_failures_surface (self : SQLiteTaskRepository)
    (f : Faults) (db : Database) :
  (forall now d,
     description_is_empty (Some d) = false ->
     some_fail f (calls_of_create self) = true
     \/ Nat.eqb (Sql.length (Py.strip d)) 0 = true ->
     exists e, create_task self f now (Some d) (at_rest db)
               = (Raise e, at_rest db)
               /\ is_storage_error e = true)
  /\ (forall now i,
        some_fail f (calls_of_write self) = true ->
        exists e, mark_completed self f now i (at_rest db)
                  = (Raise e, at_rest db)
                  /\ is_storage_error e = true)
  /\ (forall i,
        some_fail f (calls_of_write self) = true ->
        exists e, delete_task self f i (at_rest db) = (Raise e, at_rest db)
                  /\ is_storage_error e = true)
  /\ (some_fail f (calls_of_read self) = true ->
        (exists e, get_all_tasks self f (at_rest db) = (Raise e, at_rest db)
                   /\ is_storage_error e = true)
        /\ (exists e, get_pending_tasks self f (at_rest db)
                      = (Raise e, at_rest db)
                      /\ is_storage_error e = true)
        /\ (exists e, get_completed_tasks self f (at_rest db)
                      = (Raise e, at_rest db)
                      /\ is_storage_error e = true)
        /\ (forall i, exists e, get_task_by_id self f i (at_rest db)
                                = (Raise e, at_rest db)
                                /\ is_storage_error e = true))
  /\ (forall e, is_storage_error e = true -> forall msg, e <> ValueError msg)
  /\ (forall now d0, blank d0 = true ->
        exists e, create_task self f now d0 (at_rest db) = (Raise e, at_rest db)
                  /\ is_storage_error e = false).
Proof.
  split; [|split; [|split; [|split; [|split]]]].
  - intros now d. apply create_task_fails.
  - intros now i. apply mark_completed_fails.
  - intros i. apply delete_task_fails.
  - intros H. repeat split.
    + now apply query_fails.
    + now apply query_fails.
    + now apply query_fails.
    + intros i. now apply get_task_by_id_fails.
  - exact storage_error_is_no_validation_error.
  - intros now d0 H. eexists. split.
    + apply (create_task_blank self f now d0 (at_rest db) H).
    + reflexivity.
Qed.

Lemma C8_witness :
  some_fail (fail_at Commit "disk I/O error") (calls_of_write file_repo) = true
  /\ exists e,
      mark_completed file_repo (fail_at Commit "disk I/O error") t1 2
        (at_rest sample_db)
      = (Raise e, at_rest sample_db)
      /\ is_storage_error e = true.
Proof.
  split; [reflexivity|].
  apply (C8_storage_failures_surface file_repo
           (fail_at Commit "disk I/O error") sample_db).
  reflexivity.
Defined.

(** ** Running a query twice *)




(** ** Reading back a created task *)

Lemma fromisoformat_parsed (s : string) (d : datetime) :
  fromisoformat s = Return d -> parse19 (fun _ => true) s = Some d.
Proof.
  unfold fromisoformat. destruct (parse19 (fun _ => true) s); [|discriminate].
  now intros [= ->].
Qed.

Lemma _row_to_task_created (d : string) (now created : datetime)
    (db : Database) :
  description_is_empty (Some d) = false ->
  fromisoformat (CURRENT_TIMESTAMP now) = Return created ->
  _row_to_task (created_row d now db)
  = Return (mk_Task (Some (next_rowid db)) (Py.strip d) "pending" created None).
Proof.
  intros Hd Hc. unfold _row_to_task, created_row.
  cbn [r_id r_description r_status r_created_at r_completed_at].
  rewrite (StampRead.read_timestamp_parsed (fun _ => true)
             (CURRENT_TIMESTAMP now) created
             (fromisoformat_parsed _ _ Hc)
             (StampRead.get_10_CURRENT_TIMESTAMP now)).
  now apply new_Task_created.
Qed.

(** C10. Whenever [create_task] returns a Task, [get_task_by_id] on the id
    of that Task, on the store that [create_task] left, returns a Task equal
    to it: same id, the trimmed description, status pending, the same
    creation time (read by [fromisoformat] in [create_task] and through
    [_row_to_task] in [get_task_by_id]) and no completion time. *)
Theorem C10_create_then_get (self : SQLiteTaskRepository) (f : Faults)
    (now : datetime) (d0 : option string) (db : Database)
    (t : Task) (s' : Storage) :
  create_task self f now d0 (at_rest db) = (Return t, s') ->
  exists i d,
    d0 = Some d
    /\ id t = Some i
    /\ get_task_by_id self no_faults i s' = (Return (Some t), s')
    /\ description t = Py.strip d
    /\ status t = "pending"
    /\ completed_at t = None
    /\ read_timestamp (CURRENT_TIMESTAMP now) = Return (created_at t)
    /\ fromisoformat (CURRENT_TIMESTAMP now) = Return (created_at t).
Proof.
  intros H.
  apply create_task_returns in H as (d & created & -> & Hd & Hl & Hc & -> & ->).
  exists (next_rowid db), d.
  cbn [id description status completed_at created_at].
  split; [reflexivity|]. split; [reflexivity|]. split.
  - rewrite get_task_by_id_no_faults, select_created.
    now rewrite (_row_to_task_created d now created db Hd Hc).
  - repeat split; try assumption.
    apply (StampRead.read_timestamp_parsed (fun _ => true)).
    + now apply fromisoformat_parsed.
    + apply StampRead.get_10_CURRENT_TIMESTAMP.
Qed.

Lemma C10_witness :
  let t := mk_Task (Some 3%Z) "Buy groceries" "pending" t0 None in
  let s' := at_rest (created_db "  Buy groceries " t0 sample_db) in
  create_task file_repo no_faults t0 (Some "  Buy groceries ")
    (at_rest sample_db) = (Return t, s')
  /\ exists i d,
    Some "  Buy groceries " = Some d
    /\ id t = Some i
    /\ get_task_by_id file_repo no_faults i s' = (Return (Some t), s')
    /\ description t = Py.strip d
    /\ status t = "pending"
    /\ completed_at t = None
    /\ read_timestamp (CURRENT_TIMESTAMP t0) = Return (created_at t)
    /\ fromisoformat (CURRENT_TIMESTAMP t0) = Return (created_at t).
Proof.
  intros t s'. split; [reflexivity|].
  apply (C10_create_then_get file_repo no_faults t0 (Some "  Buy groceries ")
           sample_db t s').
  reflexivity.
Defined.

(** * Further properties *)

(** ** The Task entity *)

Lemma lstrip_all_space (d : string) : Py.lstrip d = "" -> all_space d = true.
Proof.
  induction d as [|c d IH]; cbn [Py.lstrip all_space]; [reflexivity|].
  destruct (Py.isspace c); [exact IH | discriminate].
Qed.

Lemma rstrip_all_space (d : string) : Py.rstrip d = "" -> all_space d = true.
Proof.
  induction d as [|c d IH]; cbn [Py.rstrip all_space]; [reflexivity|].
  destruct (Py.rstrip d); [|discriminate].
  destruct (Py.isspace c); [intros _; now apply IH | discriminate].
Qed.

Lemma strip_all_space (d : string) : Py.strip d = "" -> all_space d = true.
Proof.
  unfold Py.strip. intros H. apply rstrip_all_space in H.
  pose proof (PyFacts.lstrip_head d) as Hh.
  destruct (Py.lstrip d) as [|c r] eqn:E; [now apply lstrip_all_space|].
  cbn [all_space] in H. rewrite Hh in H. discriminate H.
Qed.

Lemma description_is_empty_blank (d0 : option string) :
  description_is_empty d0 = blank d0.
Proof.
  destruct (blank d0) eqn:B; [now apply blank_is_empty|].
  destruct d0 as [d|]; [|discriminate B]. cbn [blank] in B.
  unfold description_is_empty.
  destruct (Py.truthy d) eqn:T; [|destruct d; discriminate].
  destruct (Py.truthy (Py.strip d)) eqn:S; [reflexivity|].
  assert (Py.strip d = "") as E by (destruct (Py.strip d); [reflexivity|discriminate]).
  apply strip_all_space in E. congruence.
Qed.

(** X1. The constructor of [Task] returns a Task exactly when the
    description is neither [None] nor blank, a pending status comes without
    completion time and a completed status with one; any other status is
    taken as it is. The Task holds the trimmed description, and building a
    Task again from the fields of a Task that the constructor returned
    gives the same Task. *)
Theorem X1_task_construction (i : option Z) (d0 : option string) (s : string)
    (c : datetime) (k : option datetime) :
  ((exists t, new_Task i d0 s c k = Return t)
   <-> blank d0 = false
       /\ ~ (s = "pending" /\ k <> None)
       /\ ~ (s = "completed" /\ k = None))
  /\ (forall t, new_Task i d0 s c k = Return t ->
        (exists d, d0 = Some d /\ t = mk_Task i (Py.strip d) s c k)
        /\ new_Task (id t) (Some (description t)) (status t) (created_at t)
             (completed_at t) = Return t).
Proof.
  split.
  - unfold new_Task. rewrite <- description_is_empty_blank.
    destruct d0 as [d|]; cbn [description_is_empty].
    2:{ split; [intros [t H]; discriminate H | intros [H _]; discriminate H]. }
    fold (description_is_empty (Some d)).
    destruct (description_is_empty (Some d)).
    { split; [intros [t H]; discriminate H | intros [H _]; discriminate H]. }
    destruct (String.eqb_spec s "pending") as [->|Hp]; cbn [andb].
    + destruct k as [k|]; split.
      * intros [t H]. discriminate H.
      * intros (_ & H & _). exfalso. apply H. split; [reflexivity|discriminate].
      * intros _. repeat split; intros [H1 H2]; congruence.
      * intros _. eexists. reflexivity.
    + destruct (String.eqb_spec s "completed") as [->|Hc]; cbn [andb].
      * destruct k as [k|]; split.
        -- intros _. repeat split; intros [H1 H2]; congruence.
        -- intros _. eexists. reflexivity.
        -- intros [t H]. discriminate H.
        -- intros (_ & _ & H). exfalso. apply H. now split.
      * split; [|intros _; eexists; reflexivity].
        intros _. repeat split; intros [H1 H2]; congruence.
  - intros t H. pose proof H as H'.
    apply TaskFacts.new_Task_value in H' as (d & -> & Hd & -> & Hp & Hc).
    split; [now exists d|].
    cbn [id description status created_at completed_at].
    unfold new_Task, description_is_empty.
    rewrite PyFacts.strip_idempotent, Hd. cbn [negb orb].
    destruct (String.eqb_spec s "pending") as [->|Es]; cbn [andb].
    + rewrite (Hp eq_refl). reflexivity.
    + destruct (String.eqb_spec s "completed") as [->|Ec]; cbn [andb];
        [|reflexivity].
      destruct k; [reflexivity|]. now destruct (Hc eq_refl).
Qed.

(** ** Stored timestamps in ISO 8601 forms *)

Lemma parse19_isoformat (sep : ascii -> bool) (c : ascii) (d : datetime) :
  valid_datetime d = true -> sep c = true ->
  parse19 sep (isoformat c d) = Some d.
Proof.
  intros Hv Hs.
  destruct (Stamp.valid_bounds d Hv) as (Hy & Hm & Hd & Hh & Hi & Hse).
  unfold isoformat, pad4, pad2. cbn [append parse19].
  rewrite Stamp.num4_pad by assumption. cbn [obind].
  rewrite !Stamp.num2_pad by assumption. cbn [obind].
  destruct d as [Y M D h mi se]. cbn [year month day hour minute second] in *.
  rewrite Hs, Hv. reflexivity.
Qed.

Ltac split19 s H :=
  do 19 (destruct s as [|? s]; [discriminate H|]);
  destruct s; [|discriminate H].

Ltac digits_of H :=
  repeat match type of H with
         | context [digit_val ?c] =>
             let E := fresh "E" in
             destruct (digit_val c) eqn:E; cbn [obind] in H; [|discriminate H];
             destruct (Stamp.digit_val_letter _ _ E) as [? ?]
         end.

Ltac use_digits :=
  repeat match goal with
         | E : Ascii.eqb _ _ = false |- _ => rewrite E
         end;
  cbn [orb Ascii.eqb Bool.eqb parse19];
  repeat match goal with
         | E : digit_val _ = Some _ |- _ => rewrite E
         end;
  cbn [obind].

(** A text that reads as a datetime reads so whatever separates date and
    time for [fromisoformat], and does not end with [Z]. *)
Lemma parse19_fromisoformat (sep : ascii -> bool) (s : string) (d : datetime) :
  parse19 sep s = Some d ->
  fromisoformat s = Return d /\ Py.endswith s "Z" = false.
Proof.
  intros H. split19 s H. unfold fromisoformat.
  cbn [parse19 Py.endswith] in *. unfold num4, num2 in *.
  digits_of H. unfold guard in *.
  match type of H with
  | (if ?b then _ else _) = _ => destruct b eqn:B; [|discriminate H]
  end.
  rewrite !andb_true_iff in B. destruct B as [[[[[B1 B2] B3] B4] B5] B6].
  use_digits. rewrite B1, B2, B4, B5, B6. injection H as <-. now split.
Qed.

Lemma read_timestamp_T (sep : ascii -> bool) (s : string) (d : datetime) :
  parse19 sep s = Some d ->
  String.get 10 s = Some "T"%char ->
  read_timestamp s = Return d.
Proof.
  intros H G. destruct (parse19_fromisoformat sep s d H) as [HF HZ].
  unfold read_timestamp. rewrite HZ, HF.
  split19 s H. cbn [String.get] in G. injection G as ->.
  cbn [parse19] in H. unfold num4, num2 in H. digits_of H.
  unfold guard in H.
  match type of H with
  | (if ?b then _ else _) = _ => destruct b eqn:B; [|discriminate H]
  end.
  rewrite !andb_true_iff in B. destruct B as [[[[[B1 B2] B3] B4] B5] B6].
  apply Stamp.eqb_char in B1, B2. subst.
  cbn [Py.contains]. use_digits. reflexivity.
Qed.

Lemma endswith_snoc (s : string) (c : ascii) :
  Py.endswith (s ++ String c "") c = true.
Proof.
  induction s as [|a s IH]; cbn [append Py.endswith].
  - apply Ascii.eqb_refl.
  - destruct (s ++ String c "") eqn:E; [destruct s; discriminate E | exact IH].
Qed.

Lemma drop_last_snoc (s : string) (c : ascii) :
  Py.drop_last (s ++ String c "") = s.
Proof.
  induction s as [|a s IH]; cbn [append Py.drop_last]; [reflexivity|].
  destruct (s ++ String c "") eqn:E; [destruct s; discriminate E|].
  now rewrite IH.
Qed.

(** X2. [_row_to_task] reads the same datetime from the three forms in
    which a valid instant may be stored: the engine's own
    [YYYY-MM-DD HH:MM:SS], the ISO form with [T] between date and time,
    and either of them followed by [Z]. *)
Theorem X2_timestamp_forms_agree (d : datetime) :
  valid_datetime d = true ->
  read_timestamp (CURRENT_TIMESTAMP d) = Return d
  /\ read_timestamp (isoformat "T" d) = Return d
  /\ read_timestamp (isoformat "T" d ++ "Z") = Return d
  /\ read_timestamp (CURRENT_TIMESTAMP d ++ "Z") = Return d.
Proof.
  intros Hv.
  assert (forall c, parse19 (fun _ => true) (isoformat c d) = Some d) as HP
      by (intros c; now apply parse19_isoformat).
  split; [|split; [|split]].
  - apply (StampRead.read_timestamp_parsed (fun _ => true));
      [apply (HP " "%char) | reflexivity].
  - apply (read_timestamp_T (fun _ => true)); [apply HP | reflexivity].
  - unfold read_timestamp. rewrite endswith_snoc, drop_last_snoc.
    apply (parse19_fromisoformat _ _ _ (HP "T"%char)).
  - unfold read_timestamp. rewrite endswith_snoc, drop_last_snoc.
    apply (parse19_fromisoformat _ _ _ (HP " "%char)).
Qed.

Lemma X2_witness :
  valid_datetime t0 = true
  /\ read_timestamp (CURRENT_TIMESTAMP t0) = Return t0
  /\ read_timestamp (isoformat "T" t0) = Return t0
  /\ read_timestamp (isoformat "T" t0 ++ "Z") = Return t0
  /\ read_timestamp (CURRENT_TIMESTAMP t0 ++ "Z") = Return t0.
Proof.
  split; [reflexivity|]. apply (X2_timestamp_forms_agree t0). reflexivity.
Defined.

(** ** Rows that the table accepts and the repository cannot read *)

Lemma rows_to_tasks_poisoned (l : list Row) (r : Row) (e : Exn) :
  In r l -> _row_to_task r = Raise e -> exists e', rows_to_tasks l = Raise e'.
Proof.
  induction l as [|x l IH]; intros Hin Hr; [destruct Hin|].
  cbn [rows_to_tasks]. destruct Hin as [->|Hin].
  - rewrite Hr. now exists e.
  - destruct (_row_to_task x) as [t|e1]; [|now exists e1].
    destruct (IH Hin Hr) as [e' ->]. now exists e'.
Qed.

Lemma query_poisoned (self : SQLiteTaskRepository)
    (select : Database -> list Row) (what : string) (db : Database)
    (r : Row) (e : Exn) :
  In r (select db) -> _row_to_task r = Raise e ->
  exists e', query self no_faults select what (at_rest db)
             = (Raise e', at_rest db)
             /\ is_storage_error e' = false.
Proof.
  intros Hin Hr. rewrite query_no_faults.
  destruct (rows_to_tasks_poisoned _ r e Hin Hr) as [e' He'].
  exists e'. rewrite He'. split; [reflexivity|].
  now apply (rows_to_tasks_raises (select db)).
Qed.

Lemma blank_row_unreadable (r : Row) :
  all_space (r_description r) = true ->
  exists e, _row_to_task r = Raise e.
Proof.
  intros H. unfold _row_to_task.
  destruct (read_timestamp (r_created_at r)) as [c|e]; [|now exists e].
  match goal with
  | |- exists e, match ?k with _ => _ end = _ =>
      destruct k as [k'|e]; [|now exists e]
  end.
  unfold new_Task. rewrite (blank_is_empty (Some (r_description r)) H).
  now eexists.
Qed.

(** X3. The declarations of the table accept a row whose description is
    made of white space only (it has a positive length), but the repository
    cannot turn such a row into a Task: once any client has inserted it as a
    pending task, [get_all_tasks] and [get_pending_tasks] raise an error
    that is not a storage error, whatever else the table holds, and leave
    the store as it is. *)
Theorem X3_blank_row_breaks_listing (self : SQLiteTaskRepository)
    (db : Database) (d created : string) :
  all_space d = true -> Nat.eqb (Sql.length d) 0 = false ->
  exists db',
    execute (INSERT None d "pending" created None) db = inr (db', 1%nat)
    /\ (exists e, get_all_tasks self no_faults (at_rest db')
                  = (Raise e, at_rest db')
                  /\ is_storage_error e = false)
    /\ (exists e, get_pending_tasks self no_faults (at_rest db')
                  = (Raise e, at_rest db')
                  /\ is_storage_error e = false).
Proof.
  intros Hs Hl. cbn [execute]. rewrite next_rowid_fresh.
  set (r := mk_Row (next_rowid db) d "pending" created None).
  assert (check_constraints r = true) as Hc.
  { unfold check_constraints, check_description. cbn [r r_description].
    now rewrite Hl. }
  rewrite Hc. eexists. split; [reflexivity|].
  assert (In r (place r (rows db))) as Hin.
  { apply (Permutation_in _ (Permutation_sym (place_perm r (rows db)))).
    now left. }
  destruct (blank_row_unreadable r Hs) as [e He].
  split.
  - apply (query_poisoned self select_all _ _ r e); [|exact He].
    apply select_all_in. exact Hin.
  - apply (query_poisoned self select_pending _ _ r e); [|exact He].
    apply select_pending_in. now split.
Qed.

Lemma X3_witness :
  all_space "  " = true /\ Nat.eqb (Sql.length "  ") 0 = false
  /\ exists db',
    execute (INSERT None "  " "pending" "2024-01-15 10:30:00" None) sample_db
    = inr (db', 1%nat)
    /\ (exists e, get_all_tasks memory_repo no_faults (at_rest db')
                  = (Raise e, at_rest db')
                  /\ is_storage_error e = false)
    /\ (exists e, get_pending_tasks memory_repo no_faults (at_rest db')
                  = (Raise e, at_rest db')
                  /\ is_storage_error e = false).
Proof.
  split; [reflexivity|]. split; [reflexivity|].
  apply (X3_blank_row_breaks_listing memory_repo sample_db "  "
           "2024-01-15 10:30:00"); reflexivity.
Defined.

(** ** Rowids are not used again *)

Lemma created_db_ids_ok (d : string) (now : datetime) (db : Database) :
  Nat.eqb (Sql.length (Py.strip d)) 0 = false ->
  ids_ok db ->
  ids_ok (created_db d now db)
  /\ (seq db < seq (created_db d now db))%Z
  /\ seq (created_db d now db) = next_rowid db.
Proof.
  intros Hl [Hs Hi]. split; [split|].
  - eapply execute_schema_ok; [exact Hs|].
    rewrite execute_insert_task, Hl. reflexivity.
  - unfold created_db. cbn [rows seq]. intros r Hr.
    apply in_app_or in Hr as [Hr|[<-|[]]].
    + specialize (Hi r Hr). unfold next_rowid. lia.
    + cbn [created_row r_id]. lia.
  - unfold created_db, next_rowid. cbn [seq]. split; [lia | reflexivity].
Qed.

Lemma completed_db_ids_ok (i : Z) (now : datetime) (db : Database) :
  ids_ok db -> ids_ok (completed_db i now db).
Proof.
  intros [Hs Hi]. split; [now apply completed_db_schema_ok|].
  unfold completed_db. cbn [rows seq]. intros x Hx.
  apply in_map_iff in Hx as (r & <- & Hr). specialize (Hi r Hr).
  now destruct (is_pending i r).
Qed.

Lemma deleted_db_ids_ok (i : Z) (db : Database) :
  ids_ok db -> ids_ok (deleted_db i db).
Proof.
  intros [Hs Hi]. split; [now apply deleted_db_schema_ok|].
  unfold deleted_db. cbn [rows seq]. intros x Hx.
  apply filter_In in Hx as [Hx _]. now apply Hi.
Qed.

(** Along any run of the writing methods the counter does not go down. *)
Lemma evolves_ids_ok (self : SQLiteTaskRepository) (db : Database)
    (s' : Storage) :
  ids_ok db -> evolves self (at_rest db) s' ->
  exists db', s' = at_rest db' /\ ids_ok db' /\ (seq db <= seq db')%Z.
Proof.
  intros Hok H. remember (at_rest db) as s eqn:Es.
  induction H as [s|s s' f now d _ IH|s s' f now i _ IH|s s' f i _ IH]; subst s.
  - exists db. repeat split; try apply Hok. lia.
  - destruct (IH eq_refl) as (db1 & -> & H1 & Hle).
    destruct (create_task_storage self f now d db1)
      as [->|(d' & -> & Hd & Hl & ->)].
    + now exists db1.
    + exists (created_db d' now db1).
      destruct (created_db_ids_ok d' now db1 Hl H1) as (H2 & Hlt & _).
      repeat split; try apply H2. lia.
  - destruct (IH eq_refl) as (db1 & -> & H1 & Hle).
    destruct (mark_completed_storage self f now i db1 (proj1 H1)) as [->| ->].
    + now exists db1.
    + exists (completed_db i now db1). split; [reflexivity|].
      split; [now apply completed_db_ids_ok | exact Hle].
  - destruct (IH eq_refl) as (db1 & -> & H1 & Hle).
    destruct (delete_task_storage self f i db1) as [->| ->].
    + now exists db1.
    + exists (deleted_db i db1). split; [reflexivity|].
      split; [now apply deleted_db_ids_ok | exact Hle].
Qed.

Lemma reachable_evolves (self : SQLiteTaskRepository) (s : Storage) :
  reachable self s -> evolves self (at_rest Sql.empty) s.
Proof.
  induction 1; [apply ev_refl | now apply ev_create | now apply ev_complete
               | now apply ev_delete].
Qed.

Lemma empty_ids_ok : ids_ok Sql.empty.
Proof. split; [reflexivity | intros r []]. Qed.

(** X4. A rowid is given once. When [create_task] has returned a Task, every
    Task that [create_task] returns later, after any calls of
    [create_task], [mark_completed] and [delete_task] (so also after the
    deletion of the first Task), has a greater id. *)
Theorem X4_ids_never_reused (self : SQLiteTaskRepository)
    (s s1 s2 s3 : Storage) (f1 f2 : Faults) (now1 now2 : datetime)
    (d1 d2 : option string) (a b : Task) :
  reachable self s ->
  create_task self f1 now1 d1 s = (Return a, s1) ->
  evolves self s1 s2 ->
  create_task self f2 now2 d2 s2 = (Return b, s3) ->
  exists ia ib, id a = Some ia /\ id b = Some ib /\ (ia < ib)%Z.
Proof.
  intros Hr Ha He Hb.
  apply reachable_evolves in Hr.
  destruct (evolves_ids_ok self Sql.empty s empty_ids_ok Hr)
    as (db & -> & Hok & _).
  apply create_task_returns in Ha as (da & ca & -> & _ & Hla & _ & -> & ->).
  destruct (created_db_ids_ok da now1 db Hla Hok) as (Hok1 & _ & Hseq).
  destruct (evolves_ids_ok self _ s2 Hok1 He) as (db2 & -> & Hok2 & Hle).
  apply create_task_returns in Hb as (db' & cb & -> & _ & _ & _ & -> & _).
  exists (next_rowid db), (next_rowid db2). cbn [id].
  split; [reflexivity|]. split; [reflexivity|].
  rewrite Hseq in Hle. unfold next_rowid at 2. lia.
Qed.

Lemma X4_witness :
  let s1 := at_rest (created_db "A" t0 Sql.empty) in
  let s2 := snd (delete_task memory_repo no_faults 1 s1) in
  let s3 := at_rest (created_db "B" t1 (durable s2)) in
  reachable memory_repo (at_rest Sql.empty)
  /\ create_task memory_repo no_faults t0 (Some "A") (at_rest Sql.empty)
     = (Return (mk_Task (Some 1%Z) "A" "pending" t0 None), s1)
  /\ evolves memory_repo s1 s2
  /\ create_task memory_repo no_faults t1 (Some "B") s2
     = (Return (mk_Task (Some 2%Z) "B" "pending" t1 None), s3)
  /\ exists ia ib,
      id (mk_Task (Some 1%Z) "A" "pending" t0 None) = Some ia
      /\ id (mk_Task (Some 2%Z) "B" "pending" t1 None) = Some ib
      /\ (ia < ib)%Z.
Proof.
  intros s1 s2 s3.
  assert (reachable memory_repo (at_rest Sql.empty)) as H1 by apply reach_empty.
  assert (evolves memory_repo s1 s2) as H3
      by (apply ev_delete; apply ev_refl).
  split; [exact H1|]. split; [reflexivity|]. split; [exact H3|].
  split; [reflexivity|].
  exact (X4_ids_never_reused memory_repo (at_rest Sql.empty) s1 s2 s3
           no_faults no_faults t0 t1 (Some "A") (Some "B") _ _
           H1 eq_refl H3 eq_refl).
Defined.

(** ** What the writing methods leave alone *)

Lemma select_other_completed (i j : Z) (now : datetime) (db : Database) :
  j <> i -> select_by_id j (completed_db i now db) = select_by_id j db.
Proof.
  intros Hj. unfold select_by_id, completed_db. cbn [rows].
  rewrite find_map_id by (intros x; now destruct (is_pending i x)).
  destruct (find (has_id j) (rows db)) as [r|] eqn:E; [|reflexivity].
  cbn [option_map]. apply find_some in E as [_ E]. unfold has_id in E.
  apply Z.eqb_eq in E. unfold is_pending, has_id.
  replace (r_id r =? i)%Z with false by (symmetry; apply Z.eqb_neq; lia).
  reflexivity.
Qed.

Lemma select_other_deleted (i j : Z) (db : Database) :
  j <> i -> select_by_id j (deleted_db i db) = select_by_id j db.
Proof.
  intros Hj. unfold select_by_id, deleted_db. cbn [rows].
  induction (rows db) as [|x l IH]; cbn [filter find]; [reflexivity|].
  unfold has_id in *.
  destruct (Z.eqb_spec (r_id x) i) as [E|E]; cbn [negb find].
  - replace (r_id x =? j)%Z with false by (symmetry; apply Z.eqb_neq; lia).
    exact IH.
  - destruct (r_id x =? j)%Z; [reflexivity | exact IH].
Qed.

Lemma get_task_by_id_repo_ok (self : SQLiteTaskRepository) (i : Z)
    (db : Database) :
  repo_ok db = true ->
  get_task_by_id self no_faults i (at_rest db)
  = (Return (option_map task_of_row (select_by_id i db)), at_rest db).
Proof.
  intros Hok. rewrite get_task_by_id_no_faults.
  destruct (select_by_id i db) as [r|] eqn:E; [|reflexivity].
  apply find_some in E as [Hin _].
  destruct (repo_ok_rows db r Hok Hin) as [H1 H2].
  now rewrite (_row_to_task_ok r H1 H2).
Qed.

(** X5. [mark_completed] touches one task only and only its status and
    completion time. On a store written by the repository, every other id is
    answered by [get_task_by_id] after the call as before it; a pending
    task with the id comes back with the same id, description and creation
    time, status completed and the time of the call as completion time; a
    completed one comes back unchanged. *)
Theorem X5_mark_completed_frame (self : SQLiteTaskRepository)
    (now : datetime) (i : Z) (db : Database) :
  repo_ok db = true -> valid_datetime now = true ->
  let s' := snd (mark_completed self no_faults now i (at_rest db)) in
  (forall j, j <> i ->
     fst (get_task_by_id self no_faults j s')
     = fst (get_task_by_id self no_faults j (at_rest db)))
  /\ (forall t,
        fst (get_task_by_id self no_faults i (at_rest db)) = Return (Some t) ->
        fst (get_task_by_id self no_faults i s')
        = Return (Some (if status t =? "pending"
                        then mk_Task (id t) (description t) "completed"
                                     (created_at t) (Some now)
                        else t))).
Proof.
  intros Hok Hv s'. pose proof (repo_ok_schema_ok db Hok) as Hs.
  pose proof (completed_db_repo_ok i now db Hv Hok) as Hok'.
  assert (s' = at_rest (completed_db i now db)) as ->
      by (unfold s'; now rewrite (mark_completed_at_rest self now i db Hs)).
  split.
  - intros j Hj. rewrite !get_task_by_id_repo_ok by assumption.
    cbn [fst]. now rewrite select_other_completed.
  - intros t. rewrite !get_task_by_id_repo_ok by assumption. cbn [fst].
    destruct (select_by_id i db) as [r|] eqn:E; [|discriminate].
    cbn [option_map]. intros [= <-]. cbn [task_of_row status].
    destruct (String.eqb_spec (r_status r) "pending") as [Hp|Hp].
    + rewrite (select_completed_row i now db r E Hp). cbn [option_map].
      unfold task_of_row, complete_row.
      cbn [r_id r_description r_status r_created_at r_completed_at option_map
           id description created_at].
      now rewrite (StampRead.stamp_CURRENT_TIMESTAMP now Hv).
    + unfold select_by_id, completed_db. cbn [rows].
      rewrite find_map_id by (intros x; now destruct (is_pending i x)).
      unfold select_by_id in E. rewrite E. cbn [option_map].
      unfold is_pending. apply String.eqb_neq in Hp. rewrite Hp.
      now rewrite andb_false_r.
Qed.

Lemma X5_witness :
  repo_ok sample_db = true /\ valid_datetime t1 = true
  /\ let s' := snd (mark_completed memory_repo no_faults t1 2
                      (at_rest sample_db)) in
     (forall j, j <> 2%Z ->
        fst (get_task_by_id memory_repo no_faults j s')
        = fst (get_task_by_id memory_repo no_faults j (at_rest sample_db)))
     /\ (forall t,
           fst (get_task_by_id memory_repo no_faults 2 (at_rest sample_db))
           = Return (Some t) ->
           fst (get_task_by_id memory_repo no_faults 2 s')
           = Return (Some (if status t =? "pending"
                           then mk_Task (id t) (description t) "completed"
                                        (created_at t) (Some t1)
                           else t))).
Proof.
  split; [reflexivity|]. split; [reflexivity|].
  apply (X5_mark_completed_frame memory_repo t1 2 sample_db); reflexivity.
Defined.

(** X6. [delete_task] removes one task and nothing else. On a store written
    by the repository, every other id is answered by [get_task_by_id] after
    the call as before it, and [get_all_tasks] returns afterwards exactly
    the Tasks it returned before whose id is not the deleted one. *)
Theorem X6_delete_task_frame (self : SQLiteTaskRepository)
    (i : Z) (db : Database) :
  repo_ok db = true ->
  let s' := snd (delete_task self no_faults i (at_rest db)) in
  (forall j, j <> i ->
     fst (get_task_by_id self no_faults j s')
     = fst (get_task_by_id self no_faults j (at_rest db)))
  /\ exists before after,
      get_all_tasks self no_faults (at_rest db) = (Return before, at_rest db)
      /\ get_all_tasks self no_faults s' = (Return after, s')
      /\ forall t, In t after <-> In t before /\ id t <> Some i.
Proof.
  intros Hok s'. pose proof (repo_ok_schema_ok db Hok) as Hs.
  pose proof (deleted_db_repo_ok i db Hok) as Hok'.
  assert (s' = at_rest (deleted_db i db)) as ->
      by (unfold s'; now rewrite (delete_task_at_rest self i db Hs)).
  split.
  - intros j Hj. rewrite !get_task_by_id_repo_ok by assumption.
    cbn [fst]. now rewrite select_other_deleted.
  - exists (map task_of_row (select_all db)),
           (map task_of_row (select_all (deleted_db i db))).
    split; [apply query_repo_ok; [exact Hok|apply select_all_sub]|].
    split; [apply query_repo_ok; [exact Hok'|apply select_all_sub]|].
    intros t. rewrite !in_map_iff. split.
    + intros (r & <- & Hr). apply select_all_in in Hr.
      unfold deleted_db in Hr. cbn [rows] in Hr.
      apply filter_In in Hr as [Hr Hi]. split.
      * exists r. split; [reflexivity|]. now apply select_all_in.
      * cbn [task_of_row id]. unfold has_id in Hi.
        apply negb_true_iff, Z.eqb_neq in Hi. congruence.
    + intros [(r & <- & Hr) Hi]. exists r. split; [reflexivity|].
      apply select_all_in. apply select_all_in in Hr.
      unfold deleted_db. cbn [rows]. apply filter_In. split; [exact Hr|].
      unfold has_id. apply negb_true_iff, Z.eqb_neq.
      cbn [task_of_row id] in Hi. congruence.
Qed.

Lemma X6_witness :
  repo_ok sample_db = true
  /\ let s' := snd (delete_task file_repo no_faults 1 (at_rest sample_db)) in
     (forall j, j <> 1%Z ->
        fst (get_task_by_id file_repo no_faults j s')
        = fst (get_task_by_id file_repo no_faults j (at_rest sample_db)))
     /\ exists before after,
         get_all_tasks file_repo no_faults (at_rest sample_db)
         = (Return before, at_rest sample_db)
         /\ get_all_tasks file_repo no_faults s' = (Return after, s')
         /\ forall t, In t after <-> In t before /\ id t <> Some 1%Z.
Proof.
  split; [reflexivity|].
  apply (X6_delete_task_frame file_repo 1 sample_db). reflexivity.
Defined.

(** ** The queries agree with one another *)

Lemma schema_ok_strong (db : Database) :
  schema_ok db = true -> StronglySorted lt_id (rows db).
Proof.
  unfold schema_ok. rewrite andb_true_iff. intros [H _].
  now apply ascending_strong.
Qed.



Lemma filter_partition_perm {A : Type} (p q : A -> bool) (l : list A) :
  (forall x, In x l -> q x = negb (p x)) ->
  Permutation l (filter p l ++ filter q l).
Proof.
  induction l as [|a l IH]; intros H; cbn [filter]; [reflexivity|].
  rewrite (H a (or_introl eq_refl)).
  assert (Permutation l (filter p l ++ filter q l)) as IH'
      by (apply IH; intros x Hx; apply H; now right).
  destruct (p a); cbn [negb app].
  - now constructor.
  - now apply Permutation_cons_app.
Qed.

Lemma strong_NoDup_ids (l : list Row) :
  StronglySorted lt_id l -> NoDup (map r_id l).
Proof.
  induction 1 as [|r l Hs IH Hf]; cbn [map]; constructor; [|exact IH].
  intros Hin. apply in_map_iff in Hin as (x & Hx & Hin).
  rewrite Forall_forall in Hf. specialize (Hf x Hin). unfold lt_id in Hf. lia.
Qed.

Lemma NoDup_map_Some {A : Type} (l : list A) :
  NoDup l -> NoDup (map Some l).
Proof.
  induction 1 as [|a l Hn _ IH]; cbn [map]; constructor; [|exact IH].
  intros Hin. apply in_map_iff in Hin as (x & [= ->] & Hx). now apply Hn.
Qed.

(** X8. On a store written by the repository, the list of
    [get_all_tasks] is a rearrangement of the list of [get_pending_tasks]
    followed by the list of [get_completed_tasks], so their lengths add up;
    it holds one Task for each stored row, and no two of its Tasks have the
    same id. *)
Theorem X8_listings_count (self : SQLiteTaskRepository) (db : Database) :
  repo_ok db = true ->
  exists all pending completed,
    get_all_tasks self no_faults (at_rest db) = (Return all, at_rest db)
    /\ get_pending_tasks self no_faults (at_rest db)
       = (Return pending, at_rest db)
    /\ get_completed_tasks self no_faults (at_rest db)
       = (Return completed, at_rest db)
    /\ Permutation all (pending ++ completed)
    /\ List.length all = (List.length pending + List.length completed)%nat
    /\ List.length all = List.length (rows db)
    /\ NoDup (map id all).
Proof.
  intros Hok.
  exists (map task_of_row (select_all db)),
         (map task_of_row (select_pending db)),
         (map task_of_row (select_completed db)).
  split; [apply query_repo_ok; [exact Hok|apply select_all_sub]|].
  split; [apply query_repo_ok; [exact Hok|apply select_pending_sub]|].
  split; [apply query_repo_ok; [exact Hok|apply select_completed_sub]|].
  assert (Permutation (map task_of_row (select_all db))
            (map task_of_row (select_pending db)
             ++ map task_of_row (select_completed db))) as HP.
  { rewrite <- map_app. apply Permutation_map.
    rewrite select_all_perm, select_pending_perm, select_completed_perm.
    apply filter_partition_perm. intros r Hr.
    destruct (repo_ok_rows db r Hok Hr) as [Hc _].
    unfold check_constraints, check_status in Hc.
    rewrite !andb_true_iff, orb_true_iff in Hc. destruct Hc as [[_ Hc] _].
    destruct (String.eqb_spec (r_status r) "pending") as [E|E].
    - now rewrite E.
    - destruct Hc as [Hc|Hc]; [discriminate Hc | exact Hc]. }
  split; [exact HP|]. split; [|split].
  - rewrite (Permutation_length HP). apply length_app.
  - rewrite length_map. apply Permutation_length, select_all_perm.
  - rewrite map_map. cbn [task_of_row id].
    apply (Permutation_NoDup (l := map (fun r => Some (r_id r)) (rows db))).
    + apply Permutation_map, Permutation_sym, select_all_perm.
    + rewrite <- (map_map r_id Some). apply NoDup_map_Some.
      apply strong_NoDup_ids. apply schema_ok_strong.
      now apply repo_ok_schema_ok.
Qed.

Lemma X8_witness :
  repo_ok sample_db = true
  /\ exists all pending completed,
    get_all_tasks memory_repo no_faults (at_rest sample_db)
    = (Return all, at_rest sample_db)
    /\ get_pending_tasks memory_repo no_faults (at_rest sample_db)
       = (Return pending, at_rest sample_db)
    /\ get_completed_tasks memory_repo no_faults (at_rest sample_db)
       = (Return completed, at_rest sample_db)
    /\ Permutation all (pending ++ completed)
    /\ List.length all = (List.length pending + List.length completed)%nat
    /\ List.length all = List.length (rows sample_db)
    /\ NoDup (map id all).
Proof.
  split; [reflexivity|].
  apply (X8_listings_count memory_repo sample_db). reflexivity.
Defined.

(** ** The life of a task *)

Lemma created_row_pending (d : string) (now : datetime) (db : Database) :
  existsb (is_pending (next_rowid db)) (rows (created_db d now db)) = true.
Proof.
  apply existsb_exists. exists (created_row d now db). split.
  - unfold created_db. cbn [rows]. apply in_or_app. right. now left.
  - unfold is_pending, has_id, created_row. cbn [r_id r_status].
    now rewrite Z.eqb_refl.
Qed.

Lemma lifecycle_rows (d : string) (tc tm : datetime) (db : Database) :
  rows (deleted_db (next_rowid db)
          (completed_db (next_rowid db) tm (created_db d tc db)))
  = rows db.
Proof.
  unfold deleted_db, completed_db, created_db. cbn [rows].
  rewrite map_app, filter_app. cbn [map filter].
  assert (is_pending (next_rowid db) (created_row d tc db) = true) as Hp.
  { unfold is_pending, has_id, created_row. cbn [r_id r_status].
    now rewrite Z.eqb_refl. }
  rewrite Hp. unfold has_id at 2, complete_row. cbn [r_id created_row].
  rewrite Z.eqb_refl. cbn [negb]. rewrite app_nil_r.
  pose proof (next_rowid_fresh db) as Hf.
  rewrite existsb_has_id_false in Hf.
  rewrite map_unchanged.
  - apply filter_unchanged. intros x Hx. unfold has_id.
    apply negb_true_iff, Z.eqb_neq. now apply Hf.
  - intros x Hx. unfold is_pending, has_id.
    replace (r_id x =? next_rowid db)%Z with false; [reflexivity|].
    symmetry. apply Z.eqb_neq. now apply Hf.
Qed.

(** X9. The life of a task, on any store written by the repository and
    with no failing call: [create_task] returns a Task that
    [get_pending_tasks] then lists; [mark_completed] on its id returns true,
    after which [get_pending_tasks] lists no Task of that id and
    [get_completed_tasks] and [get_task_by_id] give the Task with status
    completed, the time of completion and everything else unchanged;
    [delete_task] on the id returns true, after which [get_task_by_id]
    returns [None] and [get_all_tasks] returns what it returned before the
    task was created. *)
Theorem X9_task_life (self : SQLiteTaskRepository) (d : string)
    (tc tm : datetime) (db : Database) :
  repo_ok db = true ->
  valid_datetime tc = true -> valid_datetime tm = true ->
  description_is_empty (Some d) = false ->
  Nat.eqb (Sql.length (Py.strip d)) 0 = false ->
  exists i s1 s2 s3 pending1 pending2 completed2,
    let t := mk_Task (Some i) (Py.strip d) "pending" tc None in
    let t' := mk_Task (Some i) (Py.strip d) "completed" tc (Some tm) in
    create_task self no_faults tc (Some d) (at_rest db) = (Return t, s1)
    /\ get_pending_tasks self no_faults s1 = (Return pending1, s1)
    /\ In t pending1
    /\ mark_completed self no_faults tm i s1 = (Return true, s2)
    /\ get_pending_tasks self no_faults s2 = (Return pending2, s2)
    /\ (forall x, In x pending2 -> id x <> Some i)
    /\ get_completed_tasks self no_faults s2 = (Return completed2, s2)
    /\ In t' completed2
    /\ get_task_by_id self no_faults i s2 = (Return (Some t'), s2)
    /\ delete_task self no_faults i s2 = (Return true, s3)
    /\ get_task_by_id self no_faults i s3 = (Return None, s3)
    /\ fst (get_all_tasks self no_faults s3)
       = fst (get_all_tasks self no_faults (at_rest db)).
Proof.
  intros Hok Hc Hm Hd Hl.
  set (i := next_rowid db).
  set (db1 := created_db d tc db).
  set (db2 := completed_db i tm db1).
  set (db3 := deleted_db i db2).
  pose proof (created_db_repo_ok d tc db Hc Hd Hl Hok) as Hok1.
  pose proof (completed_db_repo_ok i tm db1 Hm Hok1) as Hok2.
  pose proof (deleted_db_repo_ok i db2 Hok2) as Hok3.
  assert (In (created_row d tc db) (rows db1)) as Hin1
      by (unfold db1, created_db; cbn [rows]; apply in_or_app; right; now left).
  assert (select_by_id i db2 = Some (complete_row tm (created_row d tc db)))
    as Hsel2.
  { apply select_completed_row; [apply select_created | reflexivity]. }
  assert (task_of_row (complete_row tm (created_row d tc db))
          = mk_Task (Some i) (Py.strip d) "completed" tc (Some tm)) as Ht'.
  { unfold task_of_row, complete_row, created_row.
    cbn [r_id r_description r_status r_created_at r_completed_at option_map].
    now rewrite !StampRead.stamp_CURRENT_TIMESTAMP by assumption. }
  exists i, (at_rest db1), (at_rest db2), (at_rest db3),
    (map task_of_row (select_pending db1)),
    (map task_of_row (select_pending db2)),
    (map task_of_row (select_completed db2)).
  cbv zeta.
  split; [now apply create_task_at_rest|].
  split; [apply query_repo_ok; [exact Hok1|apply select_pending_sub]|].
  split.
  { unfold i. rewrite <- (task_of_created_row d tc db Hc). apply in_map.
    apply select_pending_in. now split. }
  split.
  { rewrite (mark_completed_at_rest self tm i db1 (repo_ok_schema_ok _ Hok1)).
    unfold i, db1. now rewrite created_row_pending. }
  split; [apply query_repo_ok; [exact Hok2|apply select_pending_sub]|].
  split.
  { intros x Hx. apply in_map_iff in Hx as (r & <- & Hr).
    apply select_pending_in in Hr as [Hr Hs]. cbn [task_of_row id].
    intros [= E].
    pose proof (existsb_false_forall _ _ (completed_db_settled i tm db1) r Hr)
      as Hn.
    unfold is_pending, has_id in Hn. rewrite E, Hs, Z.eqb_refl in Hn.
    discriminate Hn. }
  split; [apply query_repo_ok; [exact Hok2|apply select_completed_sub]|].
  split.
  { rewrite <- Ht'. apply in_map. apply select_completed_in.
    apply find_some in Hsel2 as [H2 _]. now split. }
  split.
  { rewrite (get_task_by_id_repo_ok self i db2 Hok2), Hsel2. cbn [option_map].
    now rewrite Ht'. }
  split.
  { rewrite (delete_task_at_rest self i db2 (repo_ok_schema_ok _ Hok2)).
    replace (existsb (has_id i) (rows db2)) with true; [reflexivity|].
    symmetry. apply existsb_exists. apply find_some in Hsel2. now eexists. }
  split.
  { rewrite (get_task_by_id_repo_ok self i db3 Hok3).
    replace (select_by_id i db3) with (@None Row); [reflexivity|].
    symmetry. unfold select_by_id.
    destruct (find (has_id i) (rows db3)) as [r|] eqn:E; [|reflexivity].
    apply find_some in E as [Hr Hi].
    pose proof (existsb_false_forall _ _ (deleted_db_settled i db2) r Hr).
    congruence. }
  unfold get_all_tasks.
  rewrite (query_repo_ok self select_all _ db3 Hok3 (select_all_sub db3)).
  rewrite (query_repo_ok self select_all _ db Hok (select_all_sub db)).
  cbn [fst]. unfold select_all, idx_tasks_created_at.
  unfold db3, db2, db1, i. now rewrite lifecycle_rows.
Qed.

Lemma X9_witness :
  repo_ok sample_db = true
  /\ valid_datetime t0 = true /\ valid_datetime t1 = true
  /\ description_is_empty (Some " Call mum ") = false
  /\ Nat.eqb (Sql.length (Py.strip " Call mum ")) 0 = false
  /\ exists i s1 s2 s3 pending1 pending2 completed2,
    let t := mk_Task (Some i) (Py.strip " Call mum ") "pending" t0 None in
    let t' := mk_Task (Some i) (Py.strip " Call mum ") "completed" t0
                      (Some t1) in
    create_task memory_repo no_faults t0 (Some " Call mum ")
      (at_rest sample_db) = (Return t, s1)
    /\ get_pending_tasks memory_repo no_faults s1 = (Return pending1, s1)
    /\ In t pending1
    /\ mark_completed memory_repo no_faults t1 i s1 = (Return true, s2)
    /\ get_pending_tasks memory_repo no_faults s2 = (Return pending2, s2)
    /\ (forall x, In x pending2 -> id x <> Some i)
    /\ get_completed_tasks memory_repo no_faults s2 = (Return completed2, s2)
    /\ In t' completed2
    /\ get_task_by_id memory_repo no_faults i s2 = (Return (Some t'), s2)
    /\ delete_task memory_repo no_faults i s2 = (Return true, s3)
    /\ get_task_by_id memory_repo no_faults i s3 = (Return None, s3)
    /\ fst (get_all_tasks memory_repo no_faults s3)
       = fst (get_all_tasks memory_repo no_faults (at_rest sample_db)).
Proof.
  do 5 (split; [reflexivity|]).
  apply (X9_task_life memory_repo " Call mum " t0 t1 sample_db); reflexivity.
Defined.

(** ** The form *)

(** X10. [TaskFormData.validate] accepts a form exactly when its description
    is not blank and, trimmed, has at most 500 characters. It leaves the
    description as typed, sets [is_valid] to its answer and an error message
    exactly when it refuses; validating the form that it left gives the
    same answer and the same form. A description that it accepts, once
    trimmed, passes the repository's own check of [create_task]. *)
Theorem X10_validate_form (form_data : TaskFormData) :
  let ok := fst (validate form_data) in
  let form_data' := snd (validate form_data) in
  (ok = true <-> blank (Some (fd_description form_data)) = false
                 /\ (String.length (Py.strip (fd_description form_data)) <= 500)%nat)
  /\ fd_description form_data' = fd_description form_data
  /\ is_valid form_data' = ok
  /\ (error_message form_data' = None <-> ok = true)
  /\ validate form_data' = (ok, form_data')
  /\ (ok = true ->
      description_is_empty (Some (Py.strip (fd_description form_data))) = false).
Proof.
  cbv zeta. unfold validate.
  rewrite <- (description_is_empty_blank (Some (fd_description form_data))).
  unfold description_is_empty. rewrite PyFacts.strip_idempotent.
  destruct (Py.truthy (Py.strip (fd_description form_data))) eqn:T; cbn [negb].
  - assert (Py.truthy (fd_description form_data) = true) as T0.
    { destruct (fd_description form_data); [discriminate T | reflexivity]. }
    rewrite T0. cbn [negb orb].
    destruct (Nat.ltb_spec 500 (String.length (Py.strip (fd_description form_data))))
      as [Hlt|Hle]; cbn [fst snd fd_description is_valid error_message];
      rewrite ?T; cbn [negb].
    + apply Nat.ltb_lt in Hlt as Hb. rewrite Hb.
      repeat split; try discriminate; try reflexivity.
      intros [_ H]. lia.
    + assert (Nat.ltb 500 (String.length (Py.strip (fd_description form_data)))
              = false) as Hb by (apply Nat.ltb_ge; exact Hle).
      rewrite Hb. repeat split; try reflexivity; try assumption.
  - cbn [fst snd fd_description is_valid error_message]. rewrite T. cbn [negb].
    rewrite orb_true_r.
    repeat split; try discriminate; try reflexivity.
    intros [H _]. discriminate H.
Qed.

(** ** The controller *)

Lemma created_db_strip (d : string) (now : datetime) (db : Database) :
  created_db (Py.strip d) now db = created_db d now db.
Proof.
  unfold created_db, created_row. now rewrite PyFacts.strip_idempotent.
Qed.

(** The three outcomes of [create_task] on a repository that keeps its
    connection: [RuntimeError] and no change, or the Task and the new row. *)
Lemma create_task_kept (self : SQLiteTaskRepository) (f : Faults)
    (now : datetime) (d : string) (db : Database) :
  keeps_connection self = true ->
  valid_datetime now = true ->
  description_is_empty (Some d) = false ->
  (some_fail f [Execute 0; Execute 1; Commit]
   || Nat.eqb (Sql.length (Py.strip d)) 0 = true ->
   exists m, create_task self f now (Some d) (at_rest db)
             = (Raise (RuntimeError m), at_rest db))
  /\ (some_fail f [Execute 0; Execute 1; Commit]
      || Nat.eqb (Sql.length (Py.strip d)) 0 = false ->
      create_task self f now (Some d) (at_rest db)
      = (Return (mk_Task (Some (next_rowid db)) (Py.strip d) "pending" now None),
         at_rest (created_db d now db))).
Proof.
  intros Hk Hv Hd. unfold create_task, some_fail, fails. rewrite Hd.
  run_m. rewrite Hk. cbn [existsb durable txn].
  destruct (f (Execute 0)) eqn:E0; cbn [orb].
  { split; [intros _; eexists; reflexivity | discriminate]. }
  rewrite execute_insert_task.
  destruct (Nat.eqb (Sql.length (Py.strip d)) 0) eqn:Hl.
  { rewrite !orb_true_r. split; [intros _; eexists; reflexivity | discriminate]. }
  rewrite !orb_false_r. cbn [durable txn lastrowid rowid_of insert_task].
  destruct (f (Execute 1)) eqn:E1; cbn [orb durable txn].
  { split; [intros _; eexists; reflexivity | discriminate]. }
  destruct (f Commit) eqn:E2; cbn [orb durable txn].
  { split; [intros _; eexists; reflexivity | discriminate]. }
  split; [discriminate|]. intros _.
  rewrite select_created.
  cbn [created_row r_created_at r_id r_description r_status].
  rewrite (fromisoformat_CURRENT_TIMESTAMP now Hv).
  now rewrite (new_Task_created _ d now Hd).
Qed.

Lemma validate_ok (form_data : TaskFormData) :
  fst (validate form_data) = true ->
  validate form_data
  = (true, mk_TaskFormData (fd_description form_data) true None)
  /\ description_is_empty (Some (Py.strip (fd_description form_data))) = false.
Proof.
  unfold validate, description_is_empty. rewrite PyFacts.strip_idempotent.
  destruct (Py.truthy (Py.strip (fd_description form_data))) eqn:T;
    cbn [negb]; [|discriminate].
  destruct (Nat.ltb 500 (String.length (Py.strip (fd_description form_data))));
    [discriminate|].
  intros _. split; reflexivity.
Qed.

(** X11. [create_new_task] on a repository that keeps its connection, with
    a valid reading of the clock, always returns. It returns true exactly
    when the form is valid, no call on the engine fails and the trimmed
    description has a positive SQL length; the store then holds the new
    row, with the trimmed description, and the form carries no error
    message. In every other case it returns false, the form carries an
    error message and the store is as before: a form that is not valid
    causes no call on the engine, and a failure of the repository is
    answered like one. The description of the form is never changed. *)
Theorem X11_create_new_task (self : SQLiteTaskRepository) (f : Faults)
    (now : datetime) (form_data : TaskFormData) (db : Database) :
  keeps_connection self = true ->
  valid_datetime now = true ->
  exists (ok : bool) (form_data' : TaskFormData),
    StreamlitUIController.create_new_task self f now form_data (at_rest db)
    = (Return (ok, form_data'),
       at_rest (if ok then created_db (fd_description form_data) now db
                else db))
    /\ (ok = true
        <-> fst (validate form_data) = true
            /\ some_fail f [Execute 0; Execute 1; Commit] = false
            /\ Nat.eqb (Sql.length (Py.strip (fd_description form_data))) 0
               = false)
    /\ fd_description form_data' = fd_description form_data
    /\ (error_message form_data' = None <-> ok = true)
    /\ (fst (validate form_data) = false ->
        form_data' = snd (validate form_data)).
Proof.
  intros Hk Hv. unfold StreamlitUIController.create_new_task,
    StreamlitUIController.validate_task_form.
  destruct (fst (validate form_data)) eqn:Ev.
  - destruct (validate_ok form_data Ev) as [-> Hd]. cbn [negb fd_description].
    destruct (create_task_kept self f now (Py.strip (fd_description form_data))
                db Hk Hv Hd) as [Hbad Hgood].
    rewrite PyFacts.strip_idempotent in Hbad, Hgood.
    destruct (some_fail f [Execute 0; Execute 1; Commit]
              || Nat.eqb (Sql.length (Py.strip (fd_description form_data))) 0)
      eqn:Ec.
    + destruct (Hbad eq_refl) as [m ->].
      exists false. eexists. split; [reflexivity|].
      cbn [fd_description error_message is_valid].
      apply orb_true_iff in Ec.
      repeat split; try discriminate.
      intros (_ & H1 & H2). destruct Ec; congruence.
    + rewrite (Hgood eq_refl), created_db_strip.
      exists true. eexists. split; [reflexivity|].
      cbn [fd_description error_message].
      apply orb_false_iff in Ec as [E1 E2].
      repeat split; try assumption; try reflexivity; discriminate.
  - destruct (validate form_data) as [ok fd'] eqn:E. cbn [fst] in Ev. subst ok.
    cbn [negb]. exists false, fd'. split; [reflexivity|].
    pose proof (X := E). unfold validate in X.
    destruct (negb (Py.truthy (Py.strip (fd_description form_data))));
      [|destruct (Nat.ltb 500 _); [|discriminate X]]; injection X as <-;
      cbn [fd_description error_message snd];
      repeat split; try discriminate; try reflexivity;
      try (intros _; reflexivity);
      intros [Hx _]; discriminate Hx.
Qed.

Lemma X11_witness :
  keeps_connection memory_repo = true /\ valid_datetime t0 = true
  /\ exists (ok : bool) (form_data' : TaskFormData),
    StreamlitUIController.create_new_task memory_repo
      (fail_at Commit "disk I/O error") t0
      (mk_TaskFormData " Call mum " false None) (at_rest sample_db)
    = (Return (ok, form_data'),
       at_rest (if ok then created_db " Call mum " t0 sample_db
                else sample_db))
    /\ (ok = true
        <-> fst (validate (mk_TaskFormData " Call mum " false None)) = true
            /\ some_fail (fail_at Commit "disk I/O error")
                 [Execute 0; Execute 1; Commit] = false
            /\ Nat.eqb (Sql.length (Py.strip " Call mum ")) 0 = false)
    /\ fd_description form_data' = " Call mum "
    /\ (error_message form_data' = None <-> ok = true)
    /\ (fst (validate (mk_TaskFormData " Call mum " false None)) = false ->
        form_data' = snd (validate (mk_TaskFormData " Call mum " false None))).
Proof.
  split; [reflexivity|]. split; [reflexivity|].
  apply (X11_create_new_task memory_repo (fail_at Commit "disk I/O error") t0
           (mk_TaskFormData " Call mum " false None) sample_db); reflexivity.
Defined.





(** X13. What the controller lets through. On a repository that opens a
    connection for each call, when the connection cannot be opened,
    [create_new_task] on a valid form, [complete_task], [delete_task] and
    [get_tasks_for_view] all raise the [sqlite3.Error] of
    [get_connection], which none of them catches; and on any repository
    [get_tasks_for_view] raises a storage error whenever a call of its
    query fails. The store is unchanged in every case. *)
Theorem X13_controller_lets_through (self : SQLiteTaskRepository)
    (f : Faults) (now : datetime) (form_data : TaskFormData) (i : Z)
    (view_mode : ViewMode) (db : Database) (msg : string) :
  (keeps_connection self = false -> f Connect = Some msg ->
   let e := sqlite3_Error ("Failed to connect to database '"
                           ++ database_path self ++ "': " ++ msg) in
   (fst (validate form_data) = true ->
    StreamlitUIController.create_new_task self f now form_data (at_rest db)
    = (Raise e, at_rest db))
   /\ StreamlitUIController.complete_task self f now i (at_rest db)
      = (Raise e, at_rest db)
   /\ StreamlitUIController.delete_task self f i (at_rest db)
      = (Raise e, at_rest db)
   /\ StreamlitUIController.get_tasks_for_view self f view_mode (at_rest db)
      = (Raise e, at_rest db))
  /\ (some_fail f (calls_of_read self) = true ->
      exists e,
        StreamlitUIController.get_tasks_for_view self f view_mode (at_rest db)
        = (Raise e, at_rest db)
        /\ is_storage_error e = true).
Proof.
  split.
  - intros Hk Hc. cbv zeta. repeat split.
    + intros Ev. unfold StreamlitUIController.create_new_task,
        StreamlitUIController.validate_task_form.
      destruct (validate_ok form_data Ev) as [-> Hd]. cbn [negb fd_description].
      unfold create_task. rewrite Hd. run_m. rewrite Hk, Hc. reflexivity.
    + unfold StreamlitUIController.complete_task, mark_completed. run_m.
      rewrite Hk, Hc. reflexivity.
    + unfold StreamlitUIController.delete_task, delete_task. run_m.
      rewrite Hk, Hc. reflexivity.
    + unfold StreamlitUIController.get_tasks_for_view, get_pending_tasks,
        get_completed_tasks, get_all_tasks, query.
      destruct view_mode; run_m; rewrite Hk, Hc; reflexivity.
  - intros H. unfold StreamlitUIController.get_tasks_for_view.
    destruct view_mode; now apply query_fails.
Qed.

Lemma X13_witness :
  keeps_connection file_repo = false
  /\ fail_at Connect "unable to open database file" Connect
     = Some "unable to open database file"
  /\ StreamlitUIController.complete_task file_repo
       (fail_at Connect "unable to open database file") t1 2
       (at_rest sample_db)
     = (Raise (sqlite3_Error ("Failed to connect to database '"
                              ++ database_path file_repo ++ "': "
                              ++ "unable to open database file")),
        at_rest sample_db).
Proof.
  split; [reflexivity|]. split; [reflexivity|].
  apply (proj1 (X13_controller_lets_through file_repo
                  (fail_at Connect "unable to open database file") t1
                  (mk_TaskFormData "x" false None) 2 ALL_TASKS sample_db
                  "unable to open database file")); reflexivity.
Defined.

(** ** The schema *)

Lemma no_failure (f : Faults) (calls : list Call) :
  some_fail f calls = false -> forall c, In c calls -> f c = None.
Proof.
  unfold some_fail, fails. intros H c Hc.
  assert (X := existsb_false_forall _ _ H c Hc). cbv beta in X.
  now destruct (f c).
Qed.

Ltac no_failures H :=
  repeat match goal with
  | |- context [?f (Execute ?k)] =>
      rewrite (no_failure f _ H (Execute k)) by (cbn; tauto)
  | |- context [?f Commit] =>
      rewrite (no_failure f _ H Commit) by (cbn; tauto)
  end.

Ltac run_d :=
  unfold Migrations.create_schema, Migrations.drop_schema,
    Migrations.or_rollback, Migrations.create_indexes, Migrations.and_then,
    Migrations.cursor_execute, Migrations.commit, Migrations.rollback,
    Migrations.get_schema_version, Migrations.after, Migrations.idle;
  cbn [Nat.add Migrations.seen Migrations.stored Migrations.in_transaction].

Lemma calls_when_idle (f : Faults) (c : Migrations.Connection)
    (s : Migrations.Schema) :
  some_fail f (Migrations.calls_of_create_schema c) = false ->
  some_fail f (Migrations.calls_of_create_schema (Migrations.idle s)) = false.
Proof.
  unfold some_fail, Migrations.calls_of_create_schema.
  rewrite !existsb_app. cbn [Migrations.idle Migrations.in_transaction].
  intros H. apply orb_false_iff in H as [-> _]. reflexivity.
Qed.

Lemma create_schema_returns (f : Faults) (c : Migrations.Connection) :
  some_fail f (Migrations.calls_of_create_schema c) = false ->
  Migrations.create_schema f c
  = (Return tt,
     Migrations.idle
       (Some (Migrations.indexed
                (Migrations.found_or_new (Migrations.seen c))))).
Proof.
  intros H. destruct c as [st se tx].
  unfold Migrations.calls_of_create_schema in H.
  cbn [Migrations.in_transaction] in H.
  destruct tx, se as [t|]; cbn [app] in H; run_d; no_failures H; reflexivity.
Qed.

(** X14. [create_schema] returns, on any connection, when none of its
    four statements fails, nor the commit if a transaction is open. It
    leaves no transaction open: the table is there with its three
    indexes, and it holds the rows and the counter it had if it was there
    already, and is the empty table otherwise. A second [create_schema]
    changes nothing, and [get_schema_version] then gives 1.0.0. *)
Theorem X14_create_schema_keeps_rows (f : Faults)
    (c : Migrations.Connection) :
  some_fail f (Migrations.calls_of_create_schema c) = false ->
  exists t : Migrations.Table,
    Migrations.create_schema f c = (Return tt, Migrations.idle (Some t))
    /\ Migrations.content t
       = match Migrations.seen c with
         | Some t0 => Migrations.content t0
         | None => Sql.empty
         end
    /\ Migrations.idx_tasks_status t = true
    /\ Migrations.idx_tasks_created_at t = true
    /\ Migrations.idx_tasks_completed_at t = true
    /\ Migrations.create_schema f (Migrations.idle (Some t))
       = (Return tt, Migrations.idle (Some t))
    /\ Migrations.get_schema_version f (Migrations.idle (Some t))
       = (Return (Some "1.0.0"), Migrations.idle (Some t)).
Proof.
  intros H.
  exists (Migrations.indexed (Migrations.found_or_new (Migrations.seen c))).
  split; [now apply create_schema_returns|].
  split; [now destruct (Migrations.seen c)|].
  do 3 (split; [reflexivity|]).
  split.
  - now rewrite (create_schema_returns f _ (calls_when_idle f c _ H)).
  - apply (calls_when_idle f c None) in H.
    unfold Migrations.get_schema_version, Migrations.calls_of_create_schema in *.
    cbn [Migrations.idle Migrations.in_transaction app] in H.
    now no_failures H.
Qed.

Lemma X14_witness :
  some_fail (fail_at Connect "unable to open database file")
    (Migrations.calls_of_create_schema
       (Migrations.mk_Connection None
          (Some (Migrations.mk_Table sample_db true false false)) true))
  = false
  /\ exists t : Migrations.Table,
       Migrations.create_schema (fail_at Connect "unable to open database file")
         (Migrations.mk_Connection None
            (Some (Migrations.mk_Table sample_db true false false)) true)
       = (Return tt, Migrations.idle (Some t))
       /\ Migrations.content t = sample_db
       /\ Migrations.idx_tasks_status t = true
       /\ Migrations.idx_tasks_created_at t = true
       /\ Migrations.idx_tasks_completed_at t = true
       /\ Migrations.create_schema
            (fail_at Connect "unable to open database file")
            (Migrations.idle (Some t))
          = (Return tt, Migrations.idle (Some t))
       /\ Migrations.get_schema_version
            (fail_at Connect "unable to open database file")
            (Migrations.idle (Some t))
          = (Return (Some "1.0.0"), Migrations.idle (Some t)).
Proof.
  split; [reflexivity|].
  apply (X14_create_schema_keeps_rows
           (fail_at Connect "unable to open database file")
           (Migrations.mk_Connection None
              (Some (Migrations.mk_Table sample_db true false false)) true)).
  reflexivity.
Defined.

(** X15. When a call of [create_schema] fails, it raises [sqlite3.Error]
    with the message of the first failure after "Failed to create schema: ".
    With a transaction open, or when the creation of the table itself
    fails, the stored schema is as before, and everything an open
    transaction had done is rolled back. With no transaction open and
    a failure after the creation of the table, the rollback undoes
    nothing: the table is there afterwards, with the rows it had or
    empty, although the function raised. *)
Theorem X15_create_schema_failure (f : Faults) (c : Migrations.Connection)
    (call : Call) (msg : string) :
  Migrations.first_failure f (Migrations.calls_of_create_schema c)
  = Some (call, msg) ->
  let e := sqlite3_Error ("Failed to create schema: " ++ msg) in
  (Migrations.in_transaction c = true ->
   Migrations.create_schema f c
   = (Raise e, Migrations.idle (Migrations.stored c)))
  /\ (Migrations.in_transaction c = false -> call = Execute 0 ->
      Migrations.create_schema f c = (Raise e, c))
  /\ (Migrations.in_transaction c = false -> call <> Execute 0 ->
      exists t : Migrations.Table,
        Migrations.create_schema f c = (Raise e, Migrations.idle (Some t))
        /\ Migrations.content t
           = match Migrations.seen c with
             | Some t0 => Migrations.content t0
             | None => Sql.empty
             end).
Proof.
  intros H. destruct c as [st se tx].
  unfold Migrations.calls_of_create_schema in H.
  cbn [Migrations.in_transaction] in *. cbv zeta.
  destruct tx; cbn [app Migrations.first_failure] in H;
  (destruct (f (Execute 0)) as [m0|] eqn:E0;
    [|destruct (f (Execute 1)) as [m1|] eqn:E1;
      [|destruct (f (Execute 2)) as [m2|] eqn:E2;
        [|destruct (f (Execute 3)) as [m3|] eqn:E3;
          [|try (destruct (f Commit) as [m4|] eqn:E4);
            try discriminate H]]]]);
    injection H as <- <-;
    (split;
     [ intros Ht; try discriminate Ht; run_d;
       rewrite ?E0, ?E1, ?E2, ?E3, ?E4; destruct se; reflexivity
     | split;
       [ intros Ht Hc; try discriminate Ht; try discriminate Hc; run_d;
         rewrite ?E0, ?E1, ?E2, ?E3, ?E4; reflexivity
       | intros Ht Hc; try discriminate Ht; try (now elim Hc); run_d;
         rewrite ?E0, ?E1, ?E2, ?E3, ?E4;
         destruct se as [t|]; eexists; split; reflexivity ]]).
Qed.

Lemma X15_witness :
  Migrations.first_failure (fail_at (Execute 2) "disk I/O error")
    (Migrations.calls_of_create_schema (Migrations.idle None))
  = Some (Execute 2, "disk I/O error")
  /\ Migrations.in_transaction (Migrations.idle None) = false
  /\ Execute 2 <> Execute 0
  /\ exists t : Migrations.Table,
       Migrations.create_schema (fail_at (Execute 2) "disk I/O error")
         (Migrations.idle None)
       = (Raise (sqlite3_Error ("Failed to create schema: "
                                ++ "disk I/O error")),
          Migrations.idle (Some t))
       /\ Migrations.content t = Sql.empty.
Proof.
  split; [reflexivity|]. split; [reflexivity|]. split; [discriminate|].
  apply (proj2 (proj2 (X15_create_schema_failure
                         (fail_at (Execute 2) "disk I/O error")
                         (Migrations.idle None)
                         (Execute 2) "disk I/O error" eq_refl)));
    [reflexivity | discriminate].
Defined.

Lemma drop_schema_returns (f : Faults) (c : Migrations.Connection) :
  some_fail f (Migrations.calls_of_drop_schema c) = false ->
  Migrations.drop_schema f c = (Return tt, Migrations.idle None).
Proof.
  intros H. destruct c as [st se tx].
  unfold Migrations.calls_of_drop_schema in H.
  cbn [Migrations.in_transaction] in H.
  destruct tx, se as [t|]; cbn [app] in H; run_d; no_failures H; reflexivity.
Qed.

(** X16. [drop_schema] returns, on any connection, when none of its four
    statements fails, nor the commit if a transaction is open. It leaves
    no table and no transaction open; a second [drop_schema] does the
    same, and [get_schema_version] then gives [None]. A [create_schema]
    after it gives the empty table, whose counter of [AUTOINCREMENT]
    starts again: the rows are lost and their ids will be given again. *)
Theorem X16_drop_schema (f : Faults) (c : Migrations.Connection) :
  some_fail f (Migrations.calls_of_drop_schema c) = false ->
  Migrations.drop_schema f c = (Return tt, Migrations.idle None)
  /\ Migrations.drop_schema f (Migrations.idle None)
     = (Return tt, Migrations.idle None)
  /\ Migrations.get_schema_version f (Migrations.idle None)
     = (Return None, Migrations.idle None)
  /\ Migrations.create_schema f (Migrations.idle None)
     = (Return tt,
        Migrations.idle (Some (Migrations.mk_Table Sql.empty true true true))).
Proof.
  intros H.
  assert (Hi := calls_when_idle f c None H).
  split; [now apply drop_schema_returns|].
  split; [now apply drop_schema_returns|].
  split.
  - unfold Migrations.get_schema_version, Migrations.calls_of_create_schema in *.
    cbn [Migrations.idle Migrations.in_transaction app] in Hi.
    now no_failures Hi.
  - now rewrite (create_schema_returns f _ Hi).
Qed.

Lemma X16_witness :
  some_fail no_faults
    (Migrations.calls_of_drop_schema
       (Migrations.idle
          (Some (Migrations.mk_Table sample_db true true true)))) = false
  /\ Migrations.drop_schema no_faults
       (Migrations.idle (Some (Migrations.mk_Table sample_db true true true)))
     = (Return tt, Migrations.idle None)
  /\ Migrations.drop_schema no_faults (Migrations.idle None)
     = (Return tt, Migrations.idle None)
  /\ Migrations.get_schema_version no_faults (Migrations.idle None)
     = (Return None, Migrations.idle None)
  /\ Migrations.create_schema no_faults (Migrations.idle None)
     = (Return tt,
        Migrations.idle (Some (Migrations.mk_Table Sql.empty true true true))).
Proof.
  split; [reflexivity|].
  apply (X16_drop_schema no_faults
           (Migrations.idle
              (Some (Migrations.mk_Table sample_db true true true)))).
  reflexivity.
Defined.

(** X17. When a call of [drop_schema] fails, it raises [sqlite3.Error]
    with the message of the first failure after "Failed to drop schema: ".
    With a transaction open, or when the first statement fails, the
    stored schema is as before, and everything an open transaction had
    done is rolled back. With no transaction open the rollback undoes
    nothing: when the drop of the table fails, the table is kept without
    its indexes. *)
Theorem X17_drop_schema_failure (f : Faults) (c : Migrations.Connection)
    (call : Call) (msg : string) :
  Migrations.first_failure f (Migrations.calls_of_drop_schema c)
  = Some (call, msg) ->
  let e := sqlite3_Error ("Failed to drop schema: " ++ msg) in
  (Migrations.in_transaction c = true ->
   Migrations.drop_schema f c
   = (Raise e, Migrations.idle (Migrations.stored c)))
  /\ (Migrations.in_transaction c = false -> call = Execute 0 ->
      Migrations.drop_schema f c = (Raise e, c))
  /\ (Migrations.in_transaction c = false -> call = Execute 3 ->
      forall t : Migrations.Table,
        Migrations.seen c = Some t ->
        Migrations.drop_schema f c
        = (Raise e,
           Migrations.idle
             (Some (Migrations.mk_Table (Migrations.content t)
                      false false false)))).
Proof.
  intros H. destruct c as [st se tx].
  unfold Migrations.calls_of_drop_schema in H.
  cbn [Migrations.in_transaction Migrations.seen] in *. cbv zeta.
  destruct tx; cbn [app Migrations.first_failure] in H;
  (destruct (f (Execute 0)) as [m0|] eqn:E0;
    [|destruct (f (Execute 1)) as [m1|] eqn:E1;
      [|destruct (f (Execute 2)) as [m2|] eqn:E2;
        [|destruct (f (Execute 3)) as [m3|] eqn:E3;
          [|try (destruct (f Commit) as [m4|] eqn:E4);
            try discriminate H]]]]);
    injection H as <- <-;
    (split;
     [ intros Ht; try discriminate Ht; run_d;
       rewrite ?E0, ?E1, ?E2, ?E3, ?E4; destruct se; reflexivity
     | split;
       [ intros Ht Hc; try discriminate Ht; try discriminate Hc; run_d;
         rewrite ?E0, ?E1, ?E2, ?E3, ?E4; reflexivity
       | intros Ht Hc; try discriminate Ht; try discriminate Hc;
         intros t ->; run_d;
         rewrite ?E0, ?E1, ?E2, ?E3, ?E4; reflexivity ]]).
Qed.

Lemma X17_witness :
  Migrations.first_failure (fail_at (Execute 3) "database table is locked")
    (Migrations.calls_of_drop_schema
       (Migrations.idle
          (Some (Migrations.mk_Table sample_db true true true))))
  = Some (Execute 3, "database table is locked")
  /\ Migrations.drop_schema (fail_at (Execute 3) "database table is locked")
       (Migrations.idle (Some (Migrations.mk_Table sample_db true true true)))
     = (Raise (sqlite3_Error ("Failed to drop schema: "
                              ++ "database table is locked")),
        Migrations.idle
          (Some (Migrations.mk_Table sample_db false false false))).
Proof.
  split; [reflexivity|].
  apply (proj2 (proj2 (X17_drop_schema_failure
                         (fail_at (Execute 3) "database table is locked")
                         (Migrations.idle
                            (Some (Migrations.mk_Table sample_db
                                     true true true)))
                         (Execute 3) "database table is locked" eq_refl))
           eq_refl eq_refl (Migrations.mk_Table sample_db true true true)
           eq_refl).
Defined.

(** X18. The construction of a repository that creates its schema, when
    the connection can be opened. On [:memory:] with no failing
    statement it keeps a connection on a new database that holds the
    empty table with its three indexes, whatever any file holds. On a
    file with no failing statement it keeps no connection, and the file
    then holds the table with its three indexes, with the rows it had.
    On a file where the table is created and a later statement fails,
    the constructor raises [sqlite3.Error], and the file holds the table
    all the same. *)
Theorem X18_repository_construction (path : string) (f : Faults)
    (disk : Migrations.Schema) :
  f Connect = None -> f (Execute 0) = None ->
  ((path =? ":memory:") = true ->
   some_fail f [Execute 1; Execute 2; Execute 3] = false ->
   __init__ path true f disk
   = (Return (mk_repository path,
              Some (Migrations.idle
                      (Some (Migrations.mk_Table Sql.empty true true true)))),
      disk))
  /\ ((path =? ":memory:") = false ->
      some_fail f [Execute 1; Execute 2; Execute 3] = false ->
      __init__ path true f disk
      = (Return (mk_repository path, None),
         Some (Migrations.indexed (Migrations.found_or_new disk))))
  /\ ((path =? ":memory:") = false ->
      forall (call : Call) (msg : string),
        Migrations.first_failure f [Execute 1; Execute 2; Execute 3]
        = Some (call, msg) ->
        exists t : Migrations.Table,
          __init__ path true f disk
          = (Raise (sqlite3_Error ("Failed to create schema: " ++ msg)),
             Some t)
          /\ Migrations.content t
             = Migrations.content (Migrations.found_or_new disk)).
Proof.
  intros Hc H0.
  assert (Hall : some_fail f [Execute 1; Execute 2; Execute 3] = false ->
                 forall s, some_fail f (Migrations.calls_of_create_schema
                                          (Migrations.idle s)) = false).
  { intros H s. unfold some_fail in *. cbn [existsb app
      Migrations.calls_of_create_schema Migrations.idle
      Migrations.in_transaction] in *.
    unfold fails at 1. now rewrite H0. }
  split; [|split].
  - intros Hm H. unfold __init__, _ensure_schema_exists,
      Migrations.get_connection. rewrite Hm, Hc.
    now rewrite (create_schema_returns f (Migrations.mk_Connection None None false)
                   (Hall H None)).
  - intros Hm H. unfold __init__, _ensure_schema_exists,
      Migrations.get_connection, Migrations.close_connection.
    cbn [database_path]. rewrite Hm, Hc.
    now rewrite (create_schema_returns f (Migrations.mk_Connection disk disk false)
                   (Hall H disk)).
  - intros Hm call msg H. unfold __init__, _ensure_schema_exists,
      Migrations.get_connection, Migrations.close_connection.
    cbn [database_path]. rewrite Hm, Hc.
    cbn [Migrations.first_failure] in H.
    destruct (f (Execute 1)) as [m1|] eqn:E1;
      [|destruct (f (Execute 2)) as [m2|] eqn:E2;
        [|destruct (f (Execute 3)) as [m3|] eqn:E3; [|discriminate H]]];
      injection H as <- <-; run_d; rewrite ?H0, ?E1, ?E2, ?E3;
      destruct disk as [t|]; eexists; split; reflexivity.
Qed.

Lemma X18_witness :
  fail_at (Execute 2) "disk I/O error" Connect = None
  /\ fail_at (Execute 2) "disk I/O error" (Execute 0) = None
  /\ (database_path file_repo =? ":memory:") = false
  /\ exists t : Migrations.Table,
       __init__ (database_path file_repo) true
         (fail_at (Execute 2) "disk I/O error") None
       = (Raise (sqlite3_Error ("Failed to create schema: "
                                ++ "disk I/O error")),
          Some t)
       /\ Migrations.content t
          = Migrations.content (Migrations.found_or_new None).
Proof.
  split; [reflexivity|]. split; [reflexivity|]. split; [reflexivity|].
  apply (proj2 (proj2 (X18_repository_construction
                         (database_path file_repo)
                         (fail_at (Execute 2) "disk I/O error") None
                         eq_refl eq_refl))
           eq_refl (Execute 2) "disk I/O error" eq_refl).
Defined.
